(** * QWindowKit, Qt window context: frameless-window interaction engine

    Shallow embedding of [src/core/contexts/qtwindowcontext.cpp] as it is
    compiled for Windows ([Q_OS_WINDOWS] defined, [Q_OS_MACOS] not):

    - [calculateCursorShape] and [calculateWindowEdges] (hit testing),
    - [QtWindowEventFilter::sharedEventFilter] (the pointer state machine),
    - [showSystemMenu_sys] (system menu set-up and display),
    - [SystemMenuHookWindowProc], [installSystemMenuHook] and
      [uninstallSystemMenuHook] (window-procedure substitution).

    C++ [int] values are integers of [Z]; the only arithmetic the code does on
    them is [w - 8], [h - 8] and [top + 30], which do not leave the [int]
    range for any window geometry the toolkit reports.  [QFlags] values and
    Win32 flag words are integers of [Z] combined with [Z.lor], [Z.land] and
    [Z.lnot], as the code combines them with [|], [&] and [~].  Calls into
    the toolkit and into the operating system are recorded, in order, in a
    list of calls returned next to the function's own result. *)

From Stdlib Require Import ZArith List Bool Lia.
From stdpp Require Import base option gmap.
Import ListNotations.
Local Open Scope Z_scope.

(** ** Qt values used by the file *)

Module Qt.

(** [Qt::Edge], combined into [Qt::Edges]. *)
Definition TopEdge : Z := 1.
Definition LeftEdge : Z := 2.
Definition RightEdge : Z := 4.
Definition BottomEdge : Z := 8.

(** [Qt::WindowState], combined into [Qt::WindowStates]. *)
Definition WindowMinimized : Z := 1.
Definition WindowMaximized : Z := 2.
Definition WindowFullScreen : Z := 4.

(** [Qt::WindowType] flag tested by the double-click handler. *)
Definition WindowMaximizeButtonHint : Z := 32768.

(** [QEvent::Type] codes of the four mouse events. *)
Definition MouseButtonPress : Z := 2.
Definition MouseButtonRelease : Z := 3.
Definition MouseButtonDblClick : Z := 4.
Definition MouseMove : Z := 5.

Inductive CursorShape :=
| ArrowCursor
| SizeVerCursor
| SizeHorCursor
| SizeBDiagCursor
| SizeFDiagCursor.

Inductive MouseButton :=
| NoButton
| LeftButton
| RightButton
| MiddleButton
| ExtraButton (n : positive).

(** [QWindow::Visibility]. *)
Inductive Visibility :=
| Hidden
| AutomaticVisibility
| Windowed
| Minimized
| Maximized
| FullScreen.

Definition isWindowed (v : Visibility) : bool :=
  match v with Windowed => true | _ => false end.

(** [QFlags::operator&] used as a condition: some bit of [f] is set. *)
Definition testAny (flags f : Z) : bool := negb (Z.land flags f =? 0).

End Qt.

Record QPoint := mkQPoint { px : Z; py : Z }.

Record QWindow := mkQWindow {
  visibility : Qt.Visibility;
  width : Z;
  height : Z
}.

(** ** Hit testing *)

Definition kDefaultResizeBorderThickness : Z := 8.

(** A [const QWindow *] is [None] when it is the null pointer. *)
Definition calculateCursorShape (window : option QWindow) (pos : QPoint)
  : Qt.CursorShape :=
  match window with
  | None => Qt.ArrowCursor
  | Some win =>
    if negb (Qt.isWindowed (visibility win)) then Qt.ArrowCursor else
    let x := px pos in
    let y := py pos in
    let w := width win in
    let h := height win in
    if ((x <? kDefaultResizeBorderThickness) && (y <? kDefaultResizeBorderThickness))
       || ((x >=? w - kDefaultResizeBorderThickness)
           && (y >=? h - kDefaultResizeBorderThickness))
    then Qt.SizeFDiagCursor
    else if ((x >=? w - kDefaultResizeBorderThickness)
             && (y <? kDefaultResizeBorderThickness))
            || ((x <? kDefaultResizeBorderThickness)
                && (y >=? h - kDefaultResizeBorderThickness))
    then Qt.SizeBDiagCursor
    else if (x <? kDefaultResizeBorderThickness)
            || (x >=? w - kDefaultResizeBorderThickness)
    then Qt.SizeHorCursor
    else if (y <? kDefaultResizeBorderThickness)
            || (y >=? h - kDefaultResizeBorderThickness)
    then Qt.SizeVerCursor
    else Qt.ArrowCursor
  end.

Definition calculateWindowEdges (window : option QWindow) (pos : QPoint) : Z :=
  match window with
  | None => 0
  | Some win =>
    if negb (Qt.isWindowed (visibility win)) then 0 else
    let edges := 0 in
    let x := px pos in
    let y := py pos in
    let edges :=
      if x <? kDefaultResizeBorderThickness then Z.lor edges Qt.LeftEdge else edges in
    let edges :=
      if x >=? width win - kDefaultResizeBorderThickness
      then Z.lor edges Qt.RightEdge else edges in
    let edges :=
      if y <? kDefaultResizeBorderThickness then Z.lor edges Qt.TopEdge else edges in
    let edges :=
      if y >=? height win - kDefaultResizeBorderThickness
      then Z.lor edges Qt.BottomEdge else edges in
    edges
  end.

(** *** Reading an edge set *)

Inductive Edge := Top | Left | Right | Bottom.

Definition edgeBit (e : Edge) : Z :=
  match e with
  | Top => Qt.TopEdge
  | Left => Qt.LeftEdge
  | Right => Qt.RightEdge
  | Bottom => Qt.BottomEdge
  end.

(** The members of a [Qt::Edges] value, listed in the order of their bits. *)
Definition edgeMembers (edges : Z) : list Edge :=
  List.filter (fun e => Qt.testAny edges (edgeBit e)) [Top; Left; Right; Bottom].

(** Two edges are adjacent when one is horizontal and the other vertical. *)
Definition adjacent (a b : Edge) : bool :=
  match a, b with
  | Top, Left | Top, Right | Bottom, Left | Bottom, Right
  | Left, Top | Right, Top | Left, Bottom | Right, Bottom => true
  | _, _ => false
  end.

(** The pointer is within the border thickness of an edge of the window. *)
Definition nearEdge (win : QWindow) (pos : QPoint) (e : Edge) : Prop :=
  match e with
  | Left => px pos < kDefaultResizeBorderThickness
  | Right => px pos >= width win - kDefaultResizeBorderThickness
  | Top => py pos < kDefaultResizeBorderThickness
  | Bottom => py pos >= height win - kDefaultResizeBorderThickness
  end.

(** The two diagonal cursors, by corner. *)
Definition cornerCursor (a b : Edge) : Qt.CursorShape :=
  match a, b with
  | Top, Left | Left, Top | Bottom, Right | Right, Bottom => Qt.SizeFDiagCursor
  | _, _ => Qt.SizeBDiagCursor
  end.

(** ** The pointer state machine *)

Inductive WindowStatus :=
| Idle
| WaitingRelease
| PreparingMove
| Moving
| Resizing.

(** The mutable members of [QtWindowEventFilter]. *)
Record Filter := mkFilter {
  m_cursorShapeChanged : bool;
  m_windowStatus : WindowStatus
}.

(** What the filter reads from [m_context] and its delegate:
    [m_context->window()], [isHostSizeFixed()], [isInTitleBarDraggableArea],
    and the host's flags and state as [getWindowFlags]/[getWindowState]
    return them.  [setWindowState] stores the new state in [hostState]. *)
Record Context := mkContext {
  window : option QWindow;
  isHostSizeFixed : bool;
  isInTitleBarDraggableArea : QPoint -> bool;
  hostFlags : Z;
  hostState : Z
}.

Record QMouseEvent := mkQMouseEvent {
  etype : Z;
  button : Qt.MouseButton;
  scenePos : QPoint;
  globalPos : QPoint
}.

(** Calls the filter makes on its collaborators. *)
Inductive Call :=
| StartSystemResize (edges : Z)
| StartSystemMove
| ShowSystemMenu (globalPos : QPoint)
| SetCursorShape (shape : Qt.CursorShape)
| RestoreCursorShape
| SetWindowState (state : Z)
| Accept.

(** One run of [sharedEventFilter]: its return value ([true] swallows the
    event), the filter and context afterwards, and the calls made. *)
Record Outcome := mkOutcome {
  swallowed : bool;
  filterAfter : Filter;
  contextAfter : Context;
  calls : list Call
}.

Definition setStatus (self : Filter) (s : WindowStatus) : Filter :=
  {| m_cursorShapeChanged := m_cursorShapeChanged self; m_windowStatus := s |}.

Definition setCursorShapeChanged (self : Filter) (b : bool) : Filter :=
  {| m_cursorShapeChanged := b; m_windowStatus := m_windowStatus self |}.

Definition setHostState (ctx : Context) (st : Z) : Context :=
  {| window := window ctx;
     isHostSizeFixed := isHostSizeFixed ctx;
     isInTitleBarDraggableArea := isInTitleBarDraggableArea ctx;
     hostFlags := hostFlags ctx;
     hostState := st |}.

Definition onMouseButtonPress (ctx : Context) (self : Filter) (me : QMouseEvent)
  : Outcome :=
  let fixedSize := isHostSizeFixed ctx in
  let inTitleBar := isInTitleBarDraggableArea ctx (scenePos me) in
  match button me with
  | Qt.LeftButton =>
    let edges := calculateWindowEdges (window ctx) (scenePos me) in
    if negb fixedSize && negb (edges =? 0) then
      mkOutcome true (setStatus self Resizing) ctx [StartSystemResize edges; Accept]
    else if inTitleBar then
      mkOutcome true (setStatus self PreparingMove) ctx [Accept]
    else
      mkOutcome false (setStatus self WaitingRelease) ctx []
  | Qt.RightButton =>
    mkOutcome false (setStatus self WaitingRelease) ctx
              (if inTitleBar then [ShowSystemMenu (globalPos me)] else [])
  | _ =>
    mkOutcome false (setStatus self WaitingRelease) ctx []
  end.

Definition onMouseButtonRelease (ctx : Context) (self : Filter) (me : QMouseEvent)
  : Outcome :=
  let inTitleBar := isInTitleBarDraggableArea ctx (scenePos me) in
  match m_windowStatus self with
  | PreparingMove | Moving | Resizing =>
    mkOutcome true (setStatus self Idle) ctx [Accept]
  | WaitingRelease =>
    mkOutcome false (setStatus self Idle) ctx []
  | Idle =>
    if inTitleBar then mkOutcome true self ctx [Accept]
    else mkOutcome false self ctx []
  end.

Definition onMouseMove (ctx : Context) (self : Filter) (me : QMouseEvent)
  : Outcome :=
  let fixedSize := isHostSizeFixed ctx in
  match m_windowStatus self with
  | Moving => mkOutcome true self ctx []
  | PreparingMove =>
    mkOutcome true (setStatus self Moving) ctx [StartSystemMove; Accept]
  | Idle =>
    if negb fixedSize then
      let shape := calculateCursorShape (window ctx) (scenePos me) in
      match shape with
      | Qt.ArrowCursor =>
        if m_cursorShapeChanged self then
          mkOutcome false (setCursorShapeChanged self false) ctx [RestoreCursorShape]
        else mkOutcome false self ctx []
      | _ =>
        mkOutcome false (setCursorShapeChanged self true) ctx [SetCursorShape shape]
      end
    else mkOutcome false self ctx []
  | _ => mkOutcome false self ctx []
  end.

Definition isLeftButton (b : Qt.MouseButton) : bool :=
  match b with Qt.LeftButton => true | _ => false end.

Definition onMouseButtonDblClick (ctx : Context) (self : Filter) (me : QMouseEvent)
  : Outcome :=
  let fixedSize := isHostSizeFixed ctx in
  let inTitleBar := isInTitleBarDraggableArea ctx (scenePos me) in
  if isLeftButton (button me) && inTitleBar && negb fixedSize then
    let windowFlags := hostFlags ctx in
    let windowState := hostState ctx in
    if Qt.testAny windowFlags Qt.WindowMaximizeButtonHint
       && negb (Qt.testAny windowState Qt.WindowFullScreen) then
      let newState :=
        if Qt.testAny windowState Qt.WindowMaximized
        then Z.land windowState (Z.lnot Qt.WindowMaximized)
        else Z.lor windowState Qt.WindowMaximized in
      mkOutcome true self (setHostState ctx newState) [SetWindowState newState; Accept]
    else mkOutcome false self ctx []
  else mkOutcome false self ctx [].

Definition sharedEventFilter (ctx : Context) (self : Filter) (event : QMouseEvent)
  : Outcome :=
  let type := etype event in
  if (type <? Qt.MouseButtonPress) || (type >? Qt.MouseMove) then
    mkOutcome false self ctx []
  else if type =? Qt.MouseButtonPress then onMouseButtonPress ctx self event
  else if type =? Qt.MouseButtonRelease then onMouseButtonRelease ctx self event
  else if type =? Qt.MouseMove then onMouseMove ctx self event
  else if type =? Qt.MouseButtonDblClick then onMouseButtonDblClick ctx self event
  else mkOutcome false self ctx [].

(** Two events delivered one after the other. *)
Definition thenEvent (o : Outcome) (event : QMouseEvent) : Outcome :=
  sharedEventFilter (contextAfter o) (filterAfter o) event.

(** The filter as its constructor leaves it. *)
Definition initialFilter : Filter :=
  {| m_cursorShapeChanged := false; m_windowStatus := Idle |}.

Definition countCalls (p : Call -> bool) (l : list Call) : nat :=
  length (List.filter p l).

Definition isStartSystemMove (c : Call) : bool :=
  match c with StartSystemMove => true | _ => false end.

Definition isSetWindowState (c : Call) : bool :=
  match c with SetWindowState _ => true | _ => false end.

(** ** Win32 values used by the file *)

Module Win32.

Definition MF_BYCOMMAND : Z := 0x0.
Definition MFS_ENABLED : Z := 0x0.
Definition MFS_DISABLED : Z := 0x3.
Definition MFS_HILITE : Z := 0x80.
Definition MFS_UNHILITE : Z := 0x0.

Definition WS_MAXIMIZEBOX : Z := 0x10000.
Definition WS_MINIMIZEBOX : Z := 0x20000.

Definition SC_SIZE : Z := 0xF000.
Definition SC_MOVE : Z := 0xF010.
Definition SC_MINIMIZE : Z := 0xF020.
Definition SC_MAXIMIZE : Z := 0xF030.
Definition SC_CLOSE : Z := 0xF060.
Definition SC_KEYMENU : Z := 0xF100.
Definition SC_RESTORE : Z := 0xF120.

Definition UINT_MAX : Z := 0xFFFFFFFF.

Definition TPM_LEFTALIGN : Z := 0x0.
Definition TPM_RIGHTBUTTON : Z := 0x2.
Definition TPM_RIGHTALIGN : Z := 0x8.
Definition TPM_RETURNCMD : Z := 0x100.

Definition WM_NCRBUTTONUP : Z := 0xA5.
Definition WM_KEYDOWN : Z := 0x100.
Definition WM_SYSKEYDOWN : Z := 0x104.
Definition WM_SYSCOMMAND : Z := 0x112.
Definition WM_RBUTTONUP : Z := 0x205.

Definition HTCAPTION : Z := 2.
Definition VK_MENU : Z := 0x12.
Definition VK_SPACE : Z := 0x20.

(** [(short)] applied to a 16-bit word. *)
Definition toShort (word : Z) : Z :=
  if word <? 0x8000 then word else word - 0x10000.

Definition LOWORD (l : Z) : Z := Z.land l 0xFFFF.
Definition HIWORD (l : Z) : Z := Z.land (Z.shiftr l 16) 0xFFFF.
Definition GET_X_LPARAM (lp : Z) : Z := toShort (LOWORD lp).
Definition GET_Y_LPARAM (lp : Z) : Z := toShort (HIWORD lp).

End Win32.

Record POINT := mkPOINT { pt_x : Z; pt_y : Z }.

Record RECT := mkRECT { rc_left : Z; rc_top : Z; rc_right : Z; rc_bottom : Z }.

Definition point2qpoint (p : POINT) : QPoint := mkQPoint (pt_x p) (pt_y p).

(** A window procedure: the replacement of this file, or any other one. *)
Inductive WndProc :=
| SystemMenuHookWindowProcPtr
| ForeignProc (addr : positive).

(** What the code asks of the operating system and of the toolkit.  Handles
    ([HWND], [HMENU]) and [QtWindowContext *] pointers are integers; a
    nullable handle is an [option]. *)
Record Os := mkOs {
  GetSystemMenu : Z -> option Z;
  GetWindowStyle : Z -> Z;
  IsZoomed : Z -> bool;
  isRightToLeft : bool;
  TrackPopupMenu : Z -> Z -> Z -> Z -> Z -> Z;
  GetKeyState : Z -> Z;
  GetWindowRect : Z -> RECT;
  ClientToScreen : Z -> POINT -> POINT;
  fromNativeLocalPosition : QPoint -> option QWindow -> QPoint;
  contextAt : Z -> Context
}.

(** Calls [showSystemMenu_sys] makes that change or show something. *)
Inductive ApiCall :=
| EnableMenuItem (hMenu item flags : Z)
| HiliteMenuItem (hWnd hMenu item flags : Z)
| SetMenuDefaultItem (hMenu item : Z) (byPos : bool)
| TrackPopupMenuCall (hMenu flags x y hWnd : Z)
| PostMessageW (hWnd msg wParam lParam : Z).

(** ** The system menu *)

Definition showSystemMenu_sys (os : Os) (hWnd : Z) (pos : POINT)
    (selectFirstEntry fixedSize : bool) : list ApiCall * bool :=
  match GetSystemMenu os hWnd with
  | None => ([], true)
  | Some hMenu =>
    let windowStyles := GetWindowStyle os hWnd in
    let allowMaximize := negb (Z.land windowStyles Win32.WS_MAXIMIZEBOX =? 0) in
    let allowMinimize := negb (Z.land windowStyles Win32.WS_MINIMIZEBOX =? 0) in
    let max := IsZoomed os hWnd in
    let defaultItemId := Win32.UINT_MAX in
    let defaultItemId := if max then Win32.SC_RESTORE else Win32.SC_MAXIMIZE in
    let defaultItemId :=
      if defaultItemId =? Win32.UINT_MAX then Win32.SC_CLOSE else defaultItemId in
    let trackFlags :=
      Z.lor (Z.lor Win32.TPM_RETURNCMD
                   (if isRightToLeft os then Win32.TPM_RIGHTALIGN
                    else Win32.TPM_LEFTALIGN))
            Win32.TPM_RIGHTBUTTON in
    let result := TrackPopupMenu os hMenu trackFlags (pt_x pos) (pt_y pos) hWnd in
    let shown :=
      [ EnableMenuItem hMenu Win32.SC_CLOSE
          (Z.lor Win32.MF_BYCOMMAND Win32.MFS_ENABLED);
        EnableMenuItem hMenu Win32.SC_MAXIMIZE
          (Z.lor Win32.MF_BYCOMMAND
             (if max || fixedSize || negb allowMaximize
              then Win32.MFS_DISABLED else Win32.MFS_ENABLED));
        EnableMenuItem hMenu Win32.SC_RESTORE
          (Z.lor Win32.MF_BYCOMMAND
             (if max && negb fixedSize && allowMaximize
              then Win32.MFS_ENABLED else Win32.MFS_DISABLED));
        HiliteMenuItem hWnd hMenu Win32.SC_RESTORE
          (Z.lor Win32.MF_BYCOMMAND
             (if selectFirstEntry then Win32.MFS_HILITE else Win32.MFS_UNHILITE));
        EnableMenuItem hMenu Win32.SC_MINIMIZE
          (Z.lor Win32.MF_BYCOMMAND
             (if allowMinimize then Win32.MFS_ENABLED else Win32.MFS_DISABLED));
        EnableMenuItem hMenu Win32.SC_SIZE
          (Z.lor Win32.MF_BYCOMMAND
             (if max || fixedSize then Win32.MFS_DISABLED else Win32.MFS_ENABLED));
        EnableMenuItem hMenu Win32.SC_MOVE
          (Z.lor Win32.MF_BYCOMMAND
             (if max then Win32.MFS_DISABLED else Win32.MFS_ENABLED));
        SetMenuDefaultItem hMenu defaultItemId false;
        TrackPopupMenuCall hMenu trackFlags (pt_x pos) (pt_y pos) hWnd;
        HiliteMenuItem hWnd hMenu Win32.SC_RESTORE
          (Z.lor Win32.MF_BYCOMMAND Win32.MFS_UNHILITE) ] in
    if result =? 0 then (shown, false)
    else (shown ++ [PostMessageW hWnd Win32.WM_SYSCOMMAND result 0], true)
  end.

(** *** Reading the calls made on the menu *)

(** The state the last [EnableMenuItem] for [item] left it in: [Some true]
    when enabled, [Some false] when disabled or grayed, [None] when no call
    named the item. *)
Fixpoint itemEnabled (item : Z) (api : list ApiCall) : option bool :=
  match api with
  | [] => None
  | c :: rest =>
    match itemEnabled item rest with
    | Some b => Some b
    | None =>
      match c with
      | EnableMenuItem _ i flags =>
        if i =? item then Some (Z.land flags Win32.MFS_DISABLED =? 0) else None
      | _ => None
      end
    end
  end.

(** The item the last [SetMenuDefaultItem] chose. *)
Fixpoint defaultItem (api : list ApiCall) : option Z :=
  match api with
  | [] => None
  | c :: rest =>
    match defaultItem rest with
    | Some i => Some i
    | None => match c with SetMenuDefaultItem _ i _ => Some i | _ => None end
    end
  end.

(** ** The hook table and the replaced window procedure *)

Record Win32QtContextData := mkData {
  originalWindowProc : option WndProc;
  context : Z
}.

(** The process state the hook functions work on: the static table
    [g_qtContextHash], and for every live window its current window
    procedure ([GWLP_WNDPROC]). *)
Record Process := mkProcess {
  g_qtContextHash : gmap Z Win32QtContextData;
  wndProcs : gmap Z WndProc
}.

(** [GetWindowLongPtrW(hwnd, GWLP_WNDPROC)]: null for a handle that names no
    window. *)
Definition GetWindowProc (p : Process) (hwnd : Z) : option WndProc :=
  wndProcs p !! hwnd.

(** [SetWindowLongPtrW(hwnd, GWLP_WNDPROC, proc)]: fails, changing nothing,
    for a handle that names no window. *)
Definition SetWindowProc (p : Process) (hwnd : Z) (proc : WndProc) : Process :=
  match wndProcs p !! hwnd with
  | Some _ => mkProcess (g_qtContextHash p) (<[hwnd := proc]> (wndProcs p))
  | None => p
  end.

Definition installSystemMenuHook (hwnd : Z) (ctx : Z) (p : Process) : Process :=
  match g_qtContextHash p !! hwnd with
  | Some _ => p
  | None =>
    let data := mkData (GetWindowProc p hwnd) ctx in
    match originalWindowProc data with
    | Some _ =>
      let p := SetWindowProc p hwnd SystemMenuHookWindowProcPtr in
      mkProcess (<[hwnd := data]> (g_qtContextHash p)) (wndProcs p)
    | None => p
    end
  end.

Definition uninstallSystemMenuHook (hwnd : Z) (p : Process) : Process :=
  match g_qtContextHash p !! hwnd with
  | None => p
  | Some data =>
    let p :=
      match originalWindowProc data with
      | Some orig => SetWindowProc p hwnd orig
      | None => p
      end in
    mkProcess (delete hwnd (g_qtContextHash p)) (wndProcs p)
  end.

(** What [SystemMenuHookWindowProc] ends with: one of the two forwarding
    calls, whose result it returns, or the system menu and the result [0]. *)
Inductive Dispatch :=
| DefWindowProcW (hWnd uMsg wParam lParam : Z)
| CallWindowProcW (proc : WndProc) (hWnd uMsg wParam lParam : Z)
| SystemMenu (menu : list ApiCall * bool) (lresult : Z).

(** The [switch] of [SystemMenuHookWindowProc]: the values of
    [shouldShowSystemMenu], [broughtByKeyboard] and [nativeGlobalPos] after
    it. *)
Definition systemMenuRequest (os : Os) (data : Win32QtContextData)
    (hWnd uMsg wParam lParam : Z) : bool * bool * POINT :=
  let unchanged := (false, false, mkPOINT 0 0) in
  if uMsg =? Win32.WM_RBUTTONUP then
    let nativeLocalPos :=
      mkPOINT (Win32.GET_X_LPARAM lParam) (Win32.GET_Y_LPARAM lParam) in
    let ctx := contextAt os (context data) in
    let qtScenePos :=
      fromNativeLocalPosition os (point2qpoint nativeLocalPos) (window ctx) in
    if isInTitleBarDraggableArea ctx qtScenePos
    then (true, false, ClientToScreen os hWnd nativeLocalPos)
    else unchanged
  else if uMsg =? Win32.WM_NCRBUTTONUP then
    if wParam =? Win32.HTCAPTION
    then (true, false,
          mkPOINT (Win32.GET_X_LPARAM lParam) (Win32.GET_Y_LPARAM lParam))
    else unchanged
  else if uMsg =? Win32.WM_SYSCOMMAND then
    let filteredWParam := Z.land wParam 0xFFF0 in
    if (filteredWParam =? Win32.SC_KEYMENU) && (lParam =? Win32.VK_SPACE) then
      let windowPos := GetWindowRect os hWnd in
      (true, true, mkPOINT (rc_left windowPos) (rc_top windowPos + 30))
    else unchanged
  else if (uMsg =? Win32.WM_KEYDOWN) || (uMsg =? Win32.WM_SYSKEYDOWN) then
    let altPressed :=
      (wParam =? Win32.VK_MENU) || (GetKeyState os Win32.VK_MENU <? 0) in
    let spacePressed :=
      (wParam =? Win32.VK_SPACE) || (GetKeyState os Win32.VK_SPACE <? 0) in
    if altPressed && spacePressed then
      let windowPos := GetWindowRect os hWnd in
      (true, true, mkPOINT (rc_left windowPos) (rc_top windowPos + 30))
    else unchanged
  else unchanged.

Definition SystemMenuHookWindowProc (os : Os) (p : Process)
    (hWnd uMsg wParam lParam : Z) : Dispatch :=
  match g_qtContextHash p !! hWnd with
  | None => DefWindowProcW hWnd uMsg wParam lParam
  | Some data =>
    let '(shouldShowSystemMenu, broughtByKeyboard, nativeGlobalPos) :=
      systemMenuRequest os data hWnd uMsg wParam lParam in
    if shouldShowSystemMenu then
      SystemMenu (showSystemMenu_sys os hWnd nativeGlobalPos broughtByKeyboard
                    (isHostSizeFixed (contextAt os (context data))))
                 0
    else
      match originalWindowProc data with
      | Some orig => CallWindowProcW orig hWnd uMsg wParam lParam
      | None => DefWindowProcW hWnd uMsg wParam lParam
      end
  end.

(** Where the operating system takes a message sent to [hwnd]: to the
    window's current procedure; [None] when no such window exists. *)
Definition deliver (os : Os) (p : Process) (hWnd uMsg wParam lParam : Z)
  : option Dispatch :=
  match GetWindowProc p hWnd with
  | None => None
  | Some SystemMenuHookWindowProcPtr =>
    Some (SystemMenuHookWindowProc os p hWnd uMsg wParam lParam)
  | Some (ForeignProc a) =>
    Some (CallWindowProcW (ForeignProc a) hWnd uMsg wParam lParam)
  end.

(** *** The states a process goes through *)

(** The table is empty when the process starts and no window uses the
    replacement procedure; then the hook is installed and removed, and
    windows come and go with procedures of their own. *)
Inductive reachable : Process -> Prop :=
| reach_start procs :
    (forall h, procs !! h <> Some SystemMenuHookWindowProcPtr) ->
    reachable (mkProcess ∅ procs)
| reach_install hwnd ctx p :
    reachable p -> reachable (installSystemMenuHook hwnd ctx p)
| reach_uninstall hwnd p :
    reachable p -> reachable (uninstallSystemMenuHook hwnd p)
| reach_create hwnd addr p :
    reachable p -> wndProcs p !! hwnd = None ->
    reachable (mkProcess (g_qtContextHash p)
                         (<[hwnd := ForeignProc addr]> (wndProcs p)))
| reach_destroy hwnd p :
    reachable p ->
    reachable (mkProcess (g_qtContextHash p) (delete hwnd (wndProcs p))).

(** Every record holds a procedure that is not the replacement, and only
    windows with a record use the replacement. *)
Definition hookInvariant (p : Process) : Prop :=
  (forall h d, g_qtContextHash p !! h = Some d ->
     exists a, originalWindowProc d = Some (ForeignProc a))
  /\ (forall h, wndProcs p !! h = Some SystemMenuHookWindowProcPtr ->
        is_Some (g_qtContextHash p !! h)).

(** ** Properties as the specification words them *)

(** A left-button press in the draggable title area. *)
Definition titlePress (ctx : Context) (e : QMouseEvent) : Prop :=
  etype e = Qt.MouseButtonPress
  /\ button e = Qt.LeftButton
  /\ isInTitleBarDraggableArea ctx (scenePos e) = true.

(** "The same press followed by a move event transitions PreparingMove to
    Moving, calls beginSystemMove exactly once, and swallows the move
    event", for one press and one move. *)
Definition titlePressThenMove_stated (ctx : Context) (self : Filter)
    (press move : QMouseEvent) : Prop :=
  m_windowStatus self = Idle ->
  titlePress ctx press ->
  etype move = Qt.MouseMove ->
  let o1 := sharedEventFilter ctx self press in
  let o2 := thenEvent o1 move in
  m_windowStatus (filterAfter o1) = PreparingMove
  /\ m_windowStatus (filterAfter o2) = Moving
  /\ countCalls isStartSystemMove (calls o1 ++ calls o2) = 1%nat
  /\ swallowed o2 = true.

(** The press does not start a resize: the window is fixed-size or no
    resize edge lies under the pointer. *)
Definition noResizeAt (ctx : Context) (pos : QPoint) : Prop :=
  isHostSizeFixed ctx = true \/ calculateWindowEdges (window ctx) pos = 0.

(** The nine regions of a windowed window, each with its cursor, read one
    by one: a corner is the meet of two bands, a band is what is left of it
    outside the corners. *)
Definition nineRegions_stated (win : QWindow) (pos : QPoint) : Prop :=
  let near := nearEdge win pos in
  let shape := calculateCursorShape (Some win) pos in
  let edges := calculateWindowEdges (Some win) pos in
  visibility win = Qt.Windowed ->
  (near Left /\ near Top \/ near Right /\ near Bottom -> shape = Qt.SizeFDiagCursor)
  /\ (near Right /\ near Top \/ near Left /\ near Bottom ->
      shape = Qt.SizeBDiagCursor)
  /\ ((near Left \/ near Right) /\ ~ near Top /\ ~ near Bottom ->
      shape = Qt.SizeHorCursor)
  /\ ((near Top \/ near Bottom) /\ ~ near Left /\ ~ near Right ->
      shape = Qt.SizeVerCursor)
  /\ (~ near Left /\ ~ near Right /\ ~ near Top /\ ~ near Bottom ->
      shape = Qt.ArrowCursor /\ edges = 0).

(** The corner between the adjacent edges [a] and [b]: exactly two members,
    an adjacent pair, and the diagonal cursor of that corner. *)
Definition cornerResult (win : QWindow) (pos : QPoint) (a b : Edge) : Prop :=
  (exists x y,
      edgeMembers (calculateWindowEdges (Some win) pos) = [x; y]
      /\ adjacent x y = true)
  /\ calculateCursorShape (Some win) pos = cornerCursor a b.

Definition corner_stated (win : QWindow) (pos : QPoint) (a b : Edge) : Prop :=
  visibility win = Qt.Windowed ->
  adjacent a b = true ->
  nearEdge win pos a -> nearEdge win pos b ->
  cornerResult win pos a b.

(** The capability flags of the window style, and the point a mouse
    message carries. *)
Definition maximizable (os : Os) (hWnd : Z) : bool :=
  negb (Z.land (GetWindowStyle os hWnd) Win32.WS_MAXIMIZEBOX =? 0).

Definition minimizable (os : Os) (hWnd : Z) : bool :=
  negb (Z.land (GetWindowStyle os hWnd) Win32.WS_MINIMIZEBOX =? 0).

Definition lParamPoint (lParam : Z) : POINT :=
  mkPOINT (Win32.GET_X_LPARAM lParam) (Win32.GET_Y_LPARAM lParam).

(** The messages that ask for the system menu, with the screen position and
    the keyboard flag each one gives: a right-button-up in the client area
    over the title area, a non-client right-button-up on the caption, the
    keyboard system-menu command, and a key-down with Alt and Space. *)
Inductive designatedTrigger (os : Os) (data : Win32QtContextData)
    (hWnd uMsg wParam lParam : Z) : POINT -> bool -> Prop :=
| trigger_client_right_button_up :
    uMsg = Win32.WM_RBUTTONUP ->
    isInTitleBarDraggableArea (contextAt os (context data))
      (fromNativeLocalPosition os
         (point2qpoint (lParamPoint lParam))
         (window (contextAt os (context data)))) = true ->
    designatedTrigger os data hWnd uMsg wParam lParam
      (ClientToScreen os hWnd (lParamPoint lParam)) false
| trigger_caption_right_button_up :
    uMsg = Win32.WM_NCRBUTTONUP ->
    wParam = Win32.HTCAPTION ->
    designatedTrigger os data hWnd uMsg wParam lParam (lParamPoint lParam) false
| trigger_keyboard_command :
    uMsg = Win32.WM_SYSCOMMAND ->
    Z.land wParam 0xFFF0 = Win32.SC_KEYMENU ->
    lParam = Win32.VK_SPACE ->
    designatedTrigger os data hWnd uMsg wParam lParam
      (mkPOINT (rc_left (GetWindowRect os hWnd))
               (rc_top (GetWindowRect os hWnd) + 30)) true
| trigger_alt_space :
    uMsg = Win32.WM_KEYDOWN \/ uMsg = Win32.WM_SYSKEYDOWN ->
    wParam = Win32.VK_MENU \/ GetKeyState os Win32.VK_MENU < 0 ->
    wParam = Win32.VK_SPACE \/ GetKeyState os Win32.VK_SPACE < 0 ->
    designatedTrigger os data hWnd uMsg wParam lParam
      (mkPOINT (rc_left (GetWindowRect os hWnd))
               (rc_top (GetWindowRect os hWnd) + 30)) true.

(** ** Sample inputs *)

Module Sample.

Definition win640 : QWindow := mkQWindow Qt.Windowed 640 480.
Definition win10 : QWindow := mkQWindow Qt.Windowed 10 10.

(** A title bar 30 units high across the top of the window. *)
Definition titleBar30 (p : QPoint) : bool :=
  (0 <=? py p) && (py p <? 30).

Definition ctx640 : Context :=
  mkContext (Some win640) false titleBar30 Qt.WindowMaximizeButtonHint 0.

Definition press (x y : Z) : QMouseEvent :=
  mkQMouseEvent Qt.MouseButtonPress Qt.LeftButton (mkQPoint x y) (mkQPoint x y).
Definition release (x y : Z) : QMouseEvent :=
  mkQMouseEvent Qt.MouseButtonRelease Qt.LeftButton (mkQPoint x y) (mkQPoint x y).
Definition move (x y : Z) : QMouseEvent :=
  mkQMouseEvent Qt.MouseMove Qt.NoButton (mkQPoint x y) (mkQPoint x y).
Definition dblClick (x y : Z) : QMouseEvent :=
  mkQMouseEvent Qt.MouseButtonDblClick Qt.LeftButton (mkQPoint x y) (mkQPoint x y).

Definition os0 : Os :=
  mkOs (fun h => if h =? 7 then Some 70 else None)
       (fun _ => Z.lor Win32.WS_MAXIMIZEBOX Win32.WS_MINIMIZEBOX)
       (fun _ => false)
       false
       (fun _ _ _ _ _ => Win32.SC_CLOSE)
       (fun _ => 0)
       (fun _ => mkRECT 100 200 740 680)
       (fun _ p => mkPOINT (pt_x p + 100) (pt_y p + 200))
       (fun p _ => p)
       (fun _ => ctx640).

(** One window, handle 7, with a procedure of its own; the table empty. *)
Definition process0 : Process :=
  mkProcess ∅ {[ 7 := ForeignProc 1 ]}.

Definition hooked : Process := installSystemMenuHook 7 1 process0.

End Sample.

(** ** Further definitions: event runs, call traces, the window context *)

(** The cursor that belongs to an edge set, with the corner pairs first. *)
Definition cursorForEdges (edges : Z) : Qt.CursorShape :=
  let has e := Qt.testAny edges (edgeBit e) in
  if (has Left && has Top) || (has Right && has Bottom) then Qt.SizeFDiagCursor
  else if (has Right && has Top) || (has Left && has Bottom) then Qt.SizeBDiagCursor
  else if has Left || has Right then Qt.SizeHorCursor
  else if has Top || has Bottom then Qt.SizeVerCursor
  else Qt.ArrowCursor.

(** The cursor of a single edge. *)
Definition edgeCursor (e : Edge) : Qt.CursorShape :=
  match e with
  | Left | Right => Qt.SizeHorCursor
  | Top | Bottom => Qt.SizeVerCursor
  end.

Definition opposite (a b : Edge) : bool :=
  match a, b with
  | Top, Bottom | Bottom, Top | Left, Right | Right, Left => true
  | _, _ => false
  end.

(** A sequence of events delivered to the filter one after the other: the
    answers of [sharedEventFilter] in order, the filter and the context at
    the end, and all the calls made. *)
Record Run := mkRun {
  answers : list bool;
  filterEnd : Filter;
  contextEnd : Context;
  trace : list Call
}.

Fixpoint runEvents (ctx : Context) (self : Filter) (events : list QMouseEvent)
  : Run :=
  match events with
  | [] => mkRun [] self ctx []
  | e :: rest =>
    let o := sharedEventFilter ctx self e in
    let r := runEvents (contextAfter o) (filterAfter o) rest in
    mkRun (swallowed o :: answers r) (filterEnd r) (contextEnd r)
          (calls o ++ trace r)
  end.

Definition isTitlePress (ctx : Context) (e : QMouseEvent) : bool :=
  (etype e =? Qt.MouseButtonPress)
  && isLeftButton (button e)
  && isInTitleBarDraggableArea ctx (scenePos e).

Definition isAccept (c : Call) : bool :=
  match c with Accept => true | _ => false end.

Definition isArrow (s : Qt.CursorShape) : bool :=
  match s with Qt.ArrowCursor => true | _ => false end.

(** The cursor calls of a trace, checked against the host: [overridden]
    tells whether a shape set through the delegate is in place.  A restore
    needs a shape in place, and the arrow is never set as a shape. *)
Fixpoint cursorCallsOk (overridden : bool) (l : list Call) : bool :=
  match l with
  | [] => true
  | SetCursorShape s :: rest => negb (isArrow s) && cursorCallsOk true rest
  | RestoreCursorShape :: rest => overridden && cursorCallsOk false rest
  | _ :: rest => cursorCallsOk overridden rest
  end.

(** Whether a shape set through the delegate is in place after the calls. *)
Fixpoint cursorOverridden (overridden : bool) (l : list Call) : bool :=
  match l with
  | [] => overridden
  | SetCursorShape _ :: rest => cursorOverridden true rest
  | RestoreCursorShape :: rest => cursorOverridden false rest
  | _ :: rest => cursorOverridden overridden rest
  end.

(** Whether the calls leave [item] highlighted: the flag of the last
    [HiliteMenuItem] that names it. *)
Fixpoint itemHilited (item : Z) (api : list ApiCall) : option bool :=
  match api with
  | [] => None
  | c :: rest =>
    match itemHilited item rest with
    | Some b => Some b
    | None =>
      match c with
      | HiliteMenuItem _ _ i flags =>
        if i =? item then Some (negb (Z.land flags Win32.MFS_HILITE =? 0))
        else None
      | _ => None
      end
    end
  end.

Definition isTrackPopupMenu (c : ApiCall) : bool :=
  match c with TrackPopupMenuCall _ _ _ _ _ => true | _ => false end.

Definition isPostMessage (c : ApiCall) : bool :=
  match c with PostMessageW _ _ _ _ => true | _ => false end.

(** The calls that set up the menu: enabling an item, choosing the default. *)
Definition isMenuSetup (c : ApiCall) : bool :=
  match c with
  | EnableMenuItem _ _ _ | SetMenuDefaultItem _ _ _ => true
  | _ => false
  end.

(** A 32-bit [lParam] that carries the point ([x], [y]) in its two 16-bit
    halves, as mouse messages do. *)
Definition packPoint (x y : Z) : Z :=
  Z.lor (Z.land x 0xFFFF) (Z.shiftl (Z.land y 0xFFFF) 16).

(** [Qt::FramelessWindowHint]. *)
Definition FramelessWindowHint : Z := 0x800.

Definition setHostFlags (ctx : Context) (flags : Z) : Context :=
  {| window := window ctx;
     isHostSizeFixed := isHostSizeFixed ctx;
     isInTitleBarDraggableArea := isInTitleBarDraggableArea ctx;
     hostFlags := flags;
     hostState := hostState ctx |}.

(** [QtWindowContext::winIdChanged], for the context at address [this]
    whose [m_windowHandle] is [window ctx]; a [WId] is an integer, zero when
    there is no native window. *)
Definition winIdChanged (this : Z) (ctx : Context) (winId oldWinId : Z)
    (p : Process) : Context * Process :=
  let ctx :=
    match window ctx with
    | Some _ => setHostFlags ctx (Z.lor (hostFlags ctx) FramelessWindowHint)
    | None => setHostFlags ctx (Z.land (hostFlags ctx) (Z.lnot FramelessWindowHint))
    end in
  let p := if oldWinId =? 0 then p else uninstallSystemMenuHook oldWinId p in
  let p := if winId =? 0 then p else installSystemMenuHook winId this p in
  (ctx, p).

(** [QtWindowContext::~QtWindowContext], for a context whose [m_windowId]
    is [windowId]. *)
Definition destroyContext (windowId : Z) (p : Process) : Process :=
  if windowId =? 0 then p else uninstallSystemMenuHook windowId p.

(** What [QtWindowContext::virtual_hook] does: the system menu, or the call
    of the base class with the same arguments. *)
Inductive HookResult :=
| ShownSystemMenu (menu : list ApiCall * bool)
| BaseVirtualHook (id : Z).

(** [QtWindowContext::virtual_hook] with a [QPoint] as its data.  The
    constant [ShowSystemMenuHook] and the conversion
    [QHighDpi::toNativeGlobalPosition] are declared outside this file and
    are arguments here. *)
Definition virtual_hook (ShowSystemMenuHook : Z)
    (toNativeGlobalPosition : QPoint -> option QWindow -> QPoint)
    (os : Os) (ctx : Context) (m_windowId : Z) (id : Z) (pos : QPoint)
  : HookResult :=
  if (id =? ShowSystemMenuHook) && negb (m_windowId =? 0) then
    let nativeGlobalPos := toNativeGlobalPosition pos (window ctx) in
    ShownSystemMenu
      (showSystemMenu_sys os m_windowId
         (mkPOINT (px nativeGlobalPos) (py nativeGlobalPos))
         false (isHostSizeFixed ctx))
  else BaseVirtualHook id.

(** A further sample: the 640 by 480 window with a fixed size. *)
Definition fixedCtx640 : Context :=
  mkContext (Some Sample.win640) true Sample.titleBar30
            Qt.WindowMaximizeButtonHint 0.

(** The window state the double-click handler passes to [setWindowState]. *)
Definition toggleMaximized (windowState : Z) : Z :=
  if Qt.testAny windowState Qt.WindowMaximized
  then Z.land windowState (Z.lnot Qt.WindowMaximized)
  else Z.lor windowState Qt.WindowMaximized.

(** A window on which a double-click in the title area maximizes or
    restores: not fixed-size, with the maximize flag, not full screen. *)
Definition maximizableByDoubleClick (ctx : Context) : Prop :=
  isHostSizeFixed ctx = false
  /\ Qt.testAny (hostFlags ctx) Qt.WindowMaximizeButtonHint = true
  /\ Qt.testAny (hostState ctx) Qt.WindowFullScreen = false.

Definition titleDoubleClick (ctx : Context) (e : QMouseEvent) : Prop :=
  etype e = Qt.MouseButtonDblClick
  /\ button e = Qt.LeftButton
  /\ isInTitleBarDraggableArea ctx (scenePos e) = true.

(** * Hit testing: properties *)

(** The comparisons of the two hit-test functions, as propositions. *)
Ltac bands :=
  repeat match goal with
  | |- context [?a <? ?b] => destruct (Z.ltb_spec a b)
  | |- context [?a >=? ?b] => rewrite (Z.geb_leb a b); destruct (Z.leb_spec b a)
  end.

Ltac open_geometry :=
  unfold calculateCursorShape, calculateWindowEdges, nearEdge,
         kDefaultResizeBorderThickness in *; simpl in *.

(** The scenario of a 640 by 480 window. *)
Example scenario_640_480 :
  let hit x y :=
    (edgeMembers (calculateWindowEdges (Some Sample.win640) (mkQPoint x y)),
     calculateCursorShape (Some Sample.win640) (mkQPoint x y)) in
  hit 3 3 = ([Top; Left], Qt.SizeFDiagCursor)
  /\ hit 320 2 = ([Top], Qt.SizeVerCursor)
  /\ hit 320 240 = ([], Qt.ArrowCursor)
  /\ hit 637 477 = ([Right; Bottom], Qt.SizeFDiagCursor).
Proof. repeat split; reflexivity. Qed.

Lemma not_windowed_no_hit (win : QWindow) (pos : QPoint) :
  visibility win <> Qt.Windowed ->
  calculateWindowEdges (Some win) pos = 0
  /\ calculateCursorShape (Some win) pos = Qt.ArrowCursor.
Proof.
  intros Hv. unfold calculateWindowEdges, calculateCursorShape.
  destruct (visibility win); simpl; try (split; reflexivity).
  now destruct Hv.
Qed.

(** The members of the edge set are the edges the pointer is near. *)
Lemma edgeMembers_near (win : QWindow) (pos : QPoint) (e : Edge) :
  visibility win = Qt.Windowed ->
  In e (edgeMembers (calculateWindowEdges (Some win) pos)) <-> nearEdge win pos e.
Proof.
  intros Hv. unfold calculateWindowEdges. rewrite Hv. simpl.
  unfold kDefaultResizeBorderThickness.
  bands; destruct e; simpl; unfold kDefaultResizeBorderThickness;
    split; intros; try lia; try tauto;
    repeat match goal with
    | H : _ \/ _ |- _ => destruct H
    | H : _ = _ |- _ => discriminate H
    | H : False |- _ => destruct H
    end.
Qed.

(** With the tests applied in the order of the code, every clause holds. *)
Lemma cursor_by_priority (win : QWindow) (pos : QPoint) :
  let near := nearEdge win pos in
  let shape := calculateCursorShape (Some win) pos in
  visibility win = Qt.Windowed ->
  (near Left /\ near Top \/ near Right /\ near Bottom -> shape = Qt.SizeFDiagCursor)
  /\ (~ (near Left /\ near Top \/ near Right /\ near Bottom) ->
      near Right /\ near Top \/ near Left /\ near Bottom ->
      shape = Qt.SizeBDiagCursor)
  /\ ((near Left \/ near Right) /\ ~ near Top /\ ~ near Bottom ->
      shape = Qt.SizeHorCursor)
  /\ ((near Top \/ near Bottom) /\ ~ near Left /\ ~ near Right ->
      shape = Qt.SizeVerCursor)
  /\ (~ near Left /\ ~ near Right /\ ~ near Top /\ ~ near Bottom ->
      shape = Qt.ArrowCursor).
Proof.
  intros near shape Hv. subst near shape.
  unfold calculateCursorShape. rewrite Hv. simpl.
  unfold kDefaultResizeBorderThickness.
  bands; simpl; repeat split; intros; try reflexivity; exfalso; lia.
Qed.

Lemma interior_no_edges (win : QWindow) (pos : QPoint) :
  (forall e, ~ nearEdge win pos e) ->
  calculateWindowEdges (Some win) pos = 0.
Proof.
  intros Hn.
  pose proof (Hn Top) as Ht. pose proof (Hn Left) as Hl.
  pose proof (Hn Right) as Hr. pose proof (Hn Bottom) as Hb.
  open_geometry.
  destruct (Qt.isWindowed (visibility win)); simpl; [| reflexivity].
  bands; simpl; try reflexivity; exfalso; lia.
Qed.

(** In a window at least 16 wide and 16 high opposite bands do not meet,
    and the nine regions hold as they are worded. *)
Lemma nineRegions_wide (win : QWindow) (pos : QPoint) :
  2 * kDefaultResizeBorderThickness <= width win ->
  2 * kDefaultResizeBorderThickness <= height win ->
  nineRegions_stated win pos.
Proof.
  intros Hw Hh. unfold nineRegions_stated. intros Hv.
  destruct (cursor_by_priority win pos Hv) as (H1 & H2 & H3 & H4 & H5).
  split; [exact H1 |]. split; [| split; [exact H3 | split; [exact H4 |]]].
  - intros Hc. apply H2; [| exact Hc].
    open_geometry. lia.
  - intros Hi. split; [apply H5; exact Hi |].
    apply interior_no_edges. intros []; tauto.
Qed.

(** C2 (as amended).  A window that is not in the windowed state has no
    resize edges and the arrow cursor.  A windowed one is split by the
    border thickness 8 measured from each edge, the tests being applied in
    this order: top-left or bottom-right corner, one diagonal cursor;
    failing that, top-right or bottom-left corner, the other diagonal
    cursor; left or right band, the horizontal cursor; top or bottom band,
    the vertical cursor; the interior, the arrow and the empty edge set. *)
Theorem hit_test_regions (win : QWindow) (pos : QPoint) :
  let near := nearEdge win pos in
  let shape := calculateCursorShape (Some win) pos in
  let edges := calculateWindowEdges (Some win) pos in
  (visibility win <> Qt.Windowed -> edges = 0 /\ shape = Qt.ArrowCursor)
  /\ (visibility win = Qt.Windowed ->
      (near Left /\ near Top \/ near Right /\ near Bottom ->
       shape = Qt.SizeFDiagCursor)
      /\ (~ (near Left /\ near Top \/ near Right /\ near Bottom) ->
          near Right /\ near Top \/ near Left /\ near Bottom ->
          shape = Qt.SizeBDiagCursor)
      /\ ((near Left \/ near Right) /\ ~ near Top /\ ~ near Bottom ->
          shape = Qt.SizeHorCursor)
      /\ ((near Top \/ near Bottom) /\ ~ near Left /\ ~ near Right ->
          shape = Qt.SizeVerCursor)
      /\ (~ near Left /\ ~ near Right /\ ~ near Top /\ ~ near Bottom ->
          shape = Qt.ArrowCursor /\ edges = 0)).
Proof.
  intros near shape edges. split.
  - apply not_windowed_no_hit.
  - intros Hv.
    destruct (cursor_by_priority win pos Hv) as (H1 & H2 & H3 & H4 & H5).
    split; [exact H1 |]. split; [exact H2 |].
    split; [exact H3 |]. split; [exact H4 |].
    intros Hi. split; [apply H5; exact Hi |].
    apply interior_no_edges. intros []; tauto.
Qed.

(** The top-right corner of the 640 by 480 window. *)
Lemma hit_test_regions_witness :
  calculateCursorShape (Some Sample.win640) (mkQPoint 637 3) = Qt.SizeBDiagCursor.
Proof.
  destruct (hit_test_regions Sample.win640 (mkQPoint 637 3)) as [_ Hw].
  destruct (Hw eq_refl) as (_ & H2 & _).
  apply H2.
  - unfold nearEdge, kDefaultResizeBorderThickness; simpl. lia.
  - left. unfold nearEdge, kDefaultResizeBorderThickness; simpl. lia.
Defined.

(** In a window 10 wide the left and right bands overlap: the point (5, 1)
    lies in the top-right corner and gets the cursor of the top-left one. *)
Lemma nineRegions_stated_fails :
  ~ nineRegions_stated Sample.win10 (mkQPoint 5 1).
Proof.
  unfold nineRegions_stated. intros H. destruct (H eq_refl) as (_ & H2 & _).
  assert (Hc : calculateCursorShape (Some Sample.win10) (mkQPoint 5 1)
               = Qt.SizeBDiagCursor).
  { apply H2. left. unfold nearEdge, kDefaultResizeBorderThickness; simpl. lia. }
  vm_compute in Hc. discriminate Hc.
Qed.

(** C3 (as amended).  In a windowed window, a pointer within the border
    thickness of two adjacent edges and of no other edge gets an edge set
    of exactly two members, an adjacent pair, and the diagonal cursor of
    that corner. *)
Theorem corner_hit (win : QWindow) (pos : QPoint) (a b : Edge) :
  visibility win = Qt.Windowed ->
  adjacent a b = true ->
  nearEdge win pos a -> nearEdge win pos b ->
  (forall e, nearEdge win pos e -> e = a \/ e = b) ->
  cornerResult win pos a b.
Proof.
  intros Hv Hadj Ha Hb Hex.
  pose proof (Hex Top) as Ht. pose proof (Hex Left) as Hl.
  pose proof (Hex Right) as Hr. pose proof (Hex Bottom) as Hbt.
  clear Hex. unfold cornerResult.
  unfold calculateCursorShape, calculateWindowEdges. rewrite Hv.
  unfold nearEdge, kDefaultResizeBorderThickness in *.
  destruct a, b; try discriminate Hadj; simpl in *;
    bands; simpl;
    try solve [exfalso; lia];
    try solve [exfalso;
               match goal with
               | H : _ -> _ = _ \/ _ = _ |- _ =>
                 destruct H as [E | E]; [lia | discriminate E | discriminate E]
               end];
    (split; [eexists _, _; split; reflexivity | reflexivity]).
Qed.

(** The top-left corner of the 640 by 480 window. *)
Lemma corner_hit_witness :
  cornerResult Sample.win640 (mkQPoint 3 3) Top Left.
Proof.
  apply (corner_hit Sample.win640 (mkQPoint 3 3) Top Left).
  - reflexivity.
  - reflexivity.
  - unfold nearEdge, kDefaultResizeBorderThickness; simpl. lia.
  - unfold nearEdge, kDefaultResizeBorderThickness; simpl. lia.
  - intros [] He; unfold nearEdge, kDefaultResizeBorderThickness in He;
      simpl in He; first [now left | now right | exfalso; lia].
Defined.

(** In a window 10 wide the point (5, 1) is within 8 of the top and left
    edges, and of the right one too: the edge set has three members. *)
Lemma corner_stated_fails :
  ~ corner_stated Sample.win10 (mkQPoint 5 1) Top Left.
Proof.
  intros H.
  assert (Ht : nearEdge Sample.win10 (mkQPoint 5 1) Top)
    by (unfold nearEdge, kDefaultResizeBorderThickness; simpl; lia).
  assert (Hl : nearEdge Sample.win10 (mkQPoint 5 1) Left)
    by (unfold nearEdge, kDefaultResizeBorderThickness; simpl; lia).
  destruct (H eq_refl eq_refl Ht Hl) as [(x & y & E & _) _].
  vm_compute in E. discriminate E.
Qed.

(** * The pointer state machine: properties *)

Lemma filter_release (ctx : Context) (self : Filter) (e : QMouseEvent) :
  etype e = Qt.MouseButtonRelease ->
  sharedEventFilter ctx self e = onMouseButtonRelease ctx self e.
Proof. intros He. unfold sharedEventFilter. rewrite He. reflexivity. Qed.

Lemma filter_press (ctx : Context) (self : Filter) (e : QMouseEvent) :
  etype e = Qt.MouseButtonPress ->
  sharedEventFilter ctx self e = onMouseButtonPress ctx self e.
Proof. intros He. unfold sharedEventFilter. rewrite He. reflexivity. Qed.

Lemma filter_move (ctx : Context) (self : Filter) (e : QMouseEvent) :
  etype e = Qt.MouseMove ->
  sharedEventFilter ctx self e = onMouseMove ctx self e.
Proof. intros He. unfold sharedEventFilter. rewrite He. reflexivity. Qed.

Lemma filter_dblClick (ctx : Context) (self : Filter) (e : QMouseEvent) :
  etype e = Qt.MouseButtonDblClick ->
  sharedEventFilter ctx self e = onMouseButtonDblClick ctx self e.
Proof. intros He. unfold sharedEventFilter. rewrite He. reflexivity. Qed.

(** No event changes what the filter reads about fixed size, the window or
    the title area. *)
Lemma filter_keeps_surroundings (ctx : Context) (self : Filter) (e : QMouseEvent) :
  let ctx' := contextAfter (sharedEventFilter ctx self e) in
  window ctx' = window ctx
  /\ isHostSizeFixed ctx' = isHostSizeFixed ctx
  /\ isInTitleBarDraggableArea ctx' = isInTitleBarDraggableArea ctx
  /\ hostFlags ctx' = hostFlags ctx.
Proof.
  unfold sharedEventFilter, onMouseButtonPress, onMouseButtonRelease,
         onMouseMove, onMouseButtonDblClick.
  repeat match goal with
  | |- context [if ?c then _ else _] => destruct c
  | |- context [match ?c with _ => _ end] => destruct c
  end; simpl; auto.
Qed.

(** A left press over the title area is swallowed and leaves the machine
    preparing a move or resizing, with no move started. *)
Lemma title_press_outcome (ctx : Context) (self : Filter) (press : QMouseEvent) :
  titlePress ctx press ->
  let o := sharedEventFilter ctx self press in
  swallowed o = true
  /\ contextAfter o = ctx
  /\ countCalls isStartSystemMove (calls o) = 0%nat
  /\ (m_windowStatus (filterAfter o) = PreparingMove
      \/ m_windowStatus (filterAfter o) = Resizing)
  /\ (noResizeAt ctx (scenePos press) ->
      m_windowStatus (filterAfter o) = PreparingMove).
Proof.
  intros (Ht & Hb & Hin). simpl. rewrite (filter_press _ _ _ Ht).
  unfold onMouseButtonPress, noResizeAt. rewrite Hb, Hin.
  destruct (isHostSizeFixed ctx); simpl.
  - repeat split; auto.
  - destruct (calculateWindowEdges (window ctx) (scenePos press) =? 0) eqn:E;
      simpl; repeat split; auto.
    intros [Hf | He]; [discriminate Hf |].
    rewrite He in E. discriminate E.
Qed.

(** C1 (as amended).  From [Idle] (and from any other state), a left press
    in the title area followed at once by a release starts no system move,
    ends in [Idle], and both events are swallowed.  When the press does not
    start a resize (the window is fixed-size, or no resize edge lies under
    the pointer), the same press followed by a move goes through
    [PreparingMove] to [Moving], starts the system move exactly once, and
    the move event is swallowed. *)
Theorem title_press_release_or_move (ctx : Context) (self : Filter)
    (press release move : QMouseEvent) :
  m_windowStatus self = Idle ->
  titlePress ctx press ->
  etype release = Qt.MouseButtonRelease ->
  etype move = Qt.MouseMove ->
  let o1 := sharedEventFilter ctx self press in
  let o2 := thenEvent o1 release in
  let o3 := thenEvent o1 move in
  (swallowed o1 = true
   /\ swallowed o2 = true
   /\ m_windowStatus (filterAfter o2) = Idle
   /\ countCalls isStartSystemMove (calls o1 ++ calls o2) = 0%nat)
  /\ (noResizeAt ctx (scenePos press) ->
      m_windowStatus (filterAfter o1) = PreparingMove
      /\ m_windowStatus (filterAfter o3) = Moving
      /\ countCalls isStartSystemMove (calls o1 ++ calls o3) = 1%nat
      /\ swallowed o3 = true).
Proof.
  intros _ Hp Hr Hm o1 o2 o3.
  destruct (title_press_outcome ctx self press Hp) as (Hs & Hc & Hn & Hst & Hprep).
  fold o1 in Hs, Hc, Hn, Hst, Hprep.
  unfold countCalls in *. split.
  - subst o2. unfold thenEvent. rewrite (filter_release _ _ _ Hr).
    unfold onMouseButtonRelease.
    rewrite List.filter_app, length_app, Hn.
    destruct Hst as [E | E]; rewrite E; simpl; auto.
  - intros Hno. specialize (Hprep Hno).
    subst o3. unfold thenEvent. rewrite (filter_move _ _ _ Hm).
    unfold onMouseMove. rewrite Hprep.
    rewrite List.filter_app, length_app, Hn. simpl. auto.
Qed.

(** A press at (320, 20), inside the title bar and clear of the border. *)
Lemma title_press_release_or_move_witness :
  let o1 := sharedEventFilter Sample.ctx640 initialFilter (Sample.press 320 20) in
  (swallowed (thenEvent o1 (Sample.release 320 20)) = true
   /\ m_windowStatus (filterAfter (thenEvent o1 (Sample.release 320 20))) = Idle)
  /\ m_windowStatus (filterAfter (thenEvent o1 (Sample.move 321 20))) = Moving.
Proof.
  intros o1.
  assert (Hp : titlePress Sample.ctx640 (Sample.press 320 20))
    by (repeat split; reflexivity).
  destruct (title_press_release_or_move Sample.ctx640 initialFilter
              (Sample.press 320 20) (Sample.release 320 20) (Sample.move 321 20)
              eq_refl Hp eq_refl eq_refl) as [(_ & H2 & H3 & _) Hmove].
  split; [split; [exact H2 | exact H3] |].
  destruct Hmove as (_ & H & _); [right; reflexivity | exact H].
Defined.

(** A press at (320, 3) is in the title bar and on the top border of a
    resizable window: it starts a resize, and the move that follows is
    neither swallowed nor the start of a system move. *)
Lemma titlePressThenMove_stated_fails :
  ~ titlePressThenMove_stated Sample.ctx640 initialFilter
      (Sample.press 320 3) (Sample.move 321 3).
Proof.
  intros H.
  assert (Hp : titlePress Sample.ctx640 (Sample.press 320 3))
    by (repeat split; reflexivity).
  destruct (H eq_refl Hp eq_refl) as (E & _).
  vm_compute in E. discriminate E.
Qed.

Example title_border_press_resizes :
  let o1 := sharedEventFilter Sample.ctx640 initialFilter (Sample.press 320 3) in
  let o2 := thenEvent o1 (Sample.move 321 3) in
  m_windowStatus (filterAfter o1) = Resizing
  /\ calls o1 = [StartSystemResize Qt.TopEdge; Accept]
  /\ swallowed o2 = false
  /\ calls o2 = []
  /\ m_windowStatus (filterAfter o2) = Resizing.
Proof. repeat split; reflexivity. Qed.

(** C10.  Whatever the state before, the machine is in [Idle] after a
    mouse-button release: the four other states are set to [Idle], and the
    branch that leaves the state alone is taken in [Idle] only. *)
Theorem release_ends_idle (ctx : Context) (self : Filter) (e : QMouseEvent) :
  etype e = Qt.MouseButtonRelease ->
  let o := sharedEventFilter ctx self e in
  m_windowStatus (filterAfter o) = Idle
  /\ (filterAfter o = self \/ filterAfter o = setStatus self Idle)
  /\ (m_windowStatus self <> Idle -> filterAfter o = setStatus self Idle).
Proof.
  intros He. simpl. rewrite (filter_release _ _ _ He).
  unfold onMouseButtonRelease.
  destruct (m_windowStatus self) eqn:E; simpl;
    try (split; [reflexivity | split; [right; reflexivity | reflexivity]]).
  destruct (isInTitleBarDraggableArea ctx (scenePos e)); simpl;
    (split; [exact E | split; [left; reflexivity | intros Hn; now destruct Hn]]).
Qed.

Lemma release_ends_idle_witness :
  m_windowStatus
    (filterAfter (sharedEventFilter Sample.ctx640 (mkFilter true Moving)
                                    (Sample.release 5 5))) = Idle.
Proof.
  exact (proj1 (release_ends_idle Sample.ctx640 (mkFilter true Moving)
                                  (Sample.release 5 5) eq_refl)).
Defined.

(** [Qt::WindowMaximized] is bit 1 of the window state. *)
Lemma land_WindowMaximized (st : Z) :
  Z.land st Qt.WindowMaximized = if Z.testbit st 1 then 2 else 0.
Proof.
  apply Z.bits_inj'. intros i Hi.
  rewrite Z.land_spec. change Qt.WindowMaximized with (2 ^ 1).
  rewrite Z.pow2_bits_eqb by lia.
  destruct (Z.eqb_spec 1 i) as [<- | Hne].
  - rewrite andb_true_r. destruct (Z.testbit st 1); reflexivity.
  - rewrite andb_false_r. destruct (Z.testbit st 1).
    + change 2 with (2 ^ 1). rewrite Z.pow2_bits_eqb by lia.
      symmetry. now apply Z.eqb_neq.
    + symmetry. apply Z.bits_0.
Qed.

Lemma testAny_WindowMaximized (st : Z) :
  Qt.testAny st Qt.WindowMaximized = Z.testbit st 1.
Proof.
  unfold Qt.testAny. rewrite land_WindowMaximized.
  destruct (Z.testbit st 1); reflexivity.
Qed.

(** Clearing the bit and setting it, bit by bit. *)
Lemma clear_WindowMaximized_bits (st i : Z) :
  0 <= i ->
  Z.testbit (Z.land st (Z.lnot Qt.WindowMaximized)) i
  = if i =? 1 then false else Z.testbit st i.
Proof.
  intros Hi. rewrite Z.land_spec, Z.lnot_spec by exact Hi.
  change Qt.WindowMaximized with (2 ^ 1). rewrite Z.pow2_bits_eqb by lia.
  rewrite (Z.eqb_sym 1 i). destruct (i =? 1); simpl.
  - apply andb_false_r.
  - apply andb_true_r.
Qed.

Lemma set_WindowMaximized_bits (st i : Z) :
  0 <= i ->
  Z.testbit (Z.lor st Qt.WindowMaximized) i
  = if i =? 1 then true else Z.testbit st i.
Proof.
  intros Hi. rewrite Z.lor_spec.
  change Qt.WindowMaximized with (2 ^ 1). rewrite Z.pow2_bits_eqb by lia.
  rewrite (Z.eqb_sym 1 i). destruct (i =? 1); simpl.
  - apply orb_true_r.
  - apply orb_false_r.
Qed.

(** C8.  A left double-click in the title area of a window that is not
    fixed-size, has the maximize flag and is not full screen sets the
    window state once, with the maximized bit flipped and every other bit
    kept, and is swallowed.  When the window is fixed-size or lacks the
    maximize flag, nothing is called, nothing changes and the event is
    forwarded. *)
Theorem title_double_click (ctx : Context) (self : Filter) (e : QMouseEvent) :
  etype e = Qt.MouseButtonDblClick ->
  button e = Qt.LeftButton ->
  isInTitleBarDraggableArea ctx (scenePos e) = true ->
  let o := sharedEventFilter ctx self e in
  (isHostSizeFixed ctx = false ->
   Qt.testAny (hostFlags ctx) Qt.WindowMaximizeButtonHint = true ->
   Qt.testAny (hostState ctx) Qt.WindowFullScreen = false ->
   swallowed o = true
   /\ calls o = [SetWindowState (hostState (contextAfter o)); Accept]
   /\ countCalls isSetWindowState (calls o) = 1%nat
   /\ Qt.testAny (hostState (contextAfter o)) Qt.WindowMaximized
      = negb (Qt.testAny (hostState ctx) Qt.WindowMaximized)
   /\ (forall i, 0 <= i -> i <> 1 ->
       Z.testbit (hostState (contextAfter o)) i = Z.testbit (hostState ctx) i)
   /\ filterAfter o = self)
  /\ (isHostSizeFixed ctx = true
      \/ Qt.testAny (hostFlags ctx) Qt.WindowMaximizeButtonHint = false ->
      swallowed o = false
      /\ calls o = []
      /\ contextAfter o = ctx
      /\ filterAfter o = self).
Proof.
  intros He Hb Hin. simpl. rewrite (filter_dblClick _ _ _ He).
  unfold onMouseButtonDblClick. rewrite Hb, Hin. simpl. split.
  - intros Hf Hmax Hfs. rewrite Hf, Hmax, Hfs. simpl.
    rewrite !testAny_WindowMaximized.
    destruct (Z.testbit (hostState ctx) 1) eqn:Hbit;
      (split; [reflexivity |]); (split; [reflexivity |]);
      (split; [reflexivity |]).
    + split; [| split; [| reflexivity]].
      * rewrite clear_WindowMaximized_bits by lia. reflexivity.
      * intros i Hi Hne. rewrite clear_WindowMaximized_bits by exact Hi.
        destruct (Z.eqb_spec i 1); [contradiction | reflexivity].
    + split; [| split; [| reflexivity]].
      * rewrite set_WindowMaximized_bits by lia. reflexivity.
      * intros i Hi Hne. rewrite set_WindowMaximized_bits by exact Hi.
        destruct (Z.eqb_spec i 1); [contradiction | reflexivity].
  - intros [Hf | Hmax].
    + rewrite Hf. simpl. auto.
    + rewrite Hmax. destruct (isHostSizeFixed ctx); simpl; auto.
Qed.

(** A double-click on the title bar of the normal 640 by 480 window
    maximizes it. *)
Lemma title_double_click_witness :
  let o := sharedEventFilter Sample.ctx640 initialFilter (Sample.dblClick 320 20) in
  swallowed o = true /\ calls o = [SetWindowState Qt.WindowMaximized; Accept].
Proof.
  destruct (title_double_click Sample.ctx640 initialFilter (Sample.dblClick 320 20)
              eq_refl eq_refl eq_refl) as [H _].
  destruct (H eq_refl eq_refl eq_refl) as (H1 & H2 & _).
  split; [exact H1 | exact H2].
Defined.

(** * The system menu: properties *)

(** C9.  Without a system menu handle nothing is configured, shown or
    posted, and the function returns [true], as when the menu was handled. *)
Theorem no_menu_handle (os : Os) (hWnd : Z) (pos : POINT)
    (selectFirstEntry fixedSize : bool) :
  GetSystemMenu os hWnd = None ->
  showSystemMenu_sys os hWnd pos selectFirstEntry fixedSize = ([], true).
Proof. intros H. unfold showSystemMenu_sys. rewrite H. reflexivity. Qed.

(** The sample system has no menu for the handle 8. *)
Lemma no_menu_handle_witness :
  showSystemMenu_sys Sample.os0 8 (mkPOINT 10 10) false false = ([], true).
Proof. apply (no_menu_handle Sample.os0 8). reflexivity. Defined.

(** C7.  With a menu handle, what is enabled and which item is the default
    follow from the style and state of the window alone: Close enabled;
    Maximize disabled exactly when maximized, fixed-size or not
    maximizable; Restore enabled exactly when maximized, not fixed-size and
    maximizable; Minimize enabled exactly when minimizable; Size disabled
    exactly when maximized or fixed-size; Move disabled exactly when
    maximized; the default item Restore when maximized and Maximize
    otherwise, one of which always applies. *)
Theorem system_menu_items (os : Os) (hWnd : Z) (pos : POINT)
    (selectFirstEntry fixedSize : bool) (hMenu : Z) :
  GetSystemMenu os hWnd = Some hMenu ->
  let api := fst (showSystemMenu_sys os hWnd pos selectFirstEntry fixedSize) in
  let max := IsZoomed os hWnd in
  itemEnabled Win32.SC_CLOSE api = Some true
  /\ itemEnabled Win32.SC_MAXIMIZE api
     = Some (negb (max || fixedSize || negb (maximizable os hWnd)))
  /\ itemEnabled Win32.SC_RESTORE api
     = Some (max && negb fixedSize && maximizable os hWnd)
  /\ itemEnabled Win32.SC_MINIMIZE api = Some (minimizable os hWnd)
  /\ itemEnabled Win32.SC_SIZE api = Some (negb (max || fixedSize))
  /\ itemEnabled Win32.SC_MOVE api = Some (negb max)
  /\ defaultItem api = Some (if max then Win32.SC_RESTORE else Win32.SC_MAXIMIZE).
Proof.
  intros H. unfold showSystemMenu_sys, maximizable, minimizable. rewrite H.
  destruct (IsZoomed os hWnd), fixedSize,
    (Z.land (GetWindowStyle os hWnd) Win32.WS_MAXIMIZEBOX =? 0),
    (Z.land (GetWindowStyle os hWnd) Win32.WS_MINIMIZEBOX =? 0),
    (TrackPopupMenu os hMenu _ (pt_x pos) (pt_y pos) hWnd =? 0);
    repeat split; reflexivity.
Qed.

(** The sample system: a normal, resizable window with both style boxes. *)
Lemma system_menu_items_witness :
  let api := fst (showSystemMenu_sys Sample.os0 7 (mkPOINT 10 10) false false) in
  itemEnabled Win32.SC_MAXIMIZE api = Some true
  /\ itemEnabled Win32.SC_RESTORE api = Some false
  /\ defaultItem api = Some Win32.SC_MAXIMIZE.
Proof.
  destruct (system_menu_items Sample.os0 7 (mkPOINT 10 10) false false 70 eq_refl)
    as (_ & H2 & H3 & _ & _ & _ & H7).
  split; [exact H2 | split; [exact H3 | exact H7]].
Defined.

(** The two windows the specification describes. *)
Example menu_of_maximized_window (os : Os) (hWnd hMenu : Z) (pos : POINT)
    (sel : bool) :
  GetSystemMenu os hWnd = Some hMenu ->
  IsZoomed os hWnd = true ->
  maximizable os hWnd = true ->
  let api := fst (showSystemMenu_sys os hWnd pos sel false) in
  itemEnabled Win32.SC_MAXIMIZE api = Some false
  /\ itemEnabled Win32.SC_RESTORE api = Some true
  /\ defaultItem api = Some Win32.SC_RESTORE.
Proof.
  intros Hm Hz Hx. unfold maximizable in Hx. apply negb_true_iff in Hx.
  unfold showSystemMenu_sys. rewrite Hm, Hz, Hx.
  destruct (Z.land (GetWindowStyle os hWnd) Win32.WS_MINIMIZEBOX =? 0),
    (TrackPopupMenu os hMenu _ (pt_x pos) (pt_y pos) hWnd =? 0);
    repeat split; reflexivity.
Qed.

Example menu_of_normal_window (os : Os) (hWnd hMenu : Z) (pos : POINT)
    (sel : bool) :
  GetSystemMenu os hWnd = Some hMenu ->
  IsZoomed os hWnd = false ->
  maximizable os hWnd = true ->
  let api := fst (showSystemMenu_sys os hWnd pos sel false) in
  itemEnabled Win32.SC_MAXIMIZE api = Some true
  /\ itemEnabled Win32.SC_RESTORE api = Some false
  /\ defaultItem api = Some Win32.SC_MAXIMIZE.
Proof.
  intros Hm Hz Hx. unfold maximizable in Hx. apply negb_true_iff in Hx.
  unfold showSystemMenu_sys. rewrite Hm, Hz, Hx.
  destruct (Z.land (GetWindowStyle os hWnd) Win32.WS_MINIMIZEBOX =? 0),
    (TrackPopupMenu os hMenu _ (pt_x pos) (pt_y pos) hWnd =? 0);
    repeat split; reflexivity.
Qed.

(** * The hook table: properties *)

Lemma reachable_hookInvariant (p : Process) : reachable p -> hookInvariant p.
Proof.
  induction 1 as [procs Hstart | hwnd ctx p Hr [I1 I2] | hwnd p Hr [I1 I2]
                  | hwnd addr p Hr [I1 I2] Hnew | hwnd p Hr [I1 I2]].
  - split; simpl.
    + intros h d Hl. rewrite lookup_empty in Hl. discriminate Hl.
    + intros h Hl. destruct (Hstart h Hl).
  - unfold installSystemMenuHook.
    destruct (g_qtContextHash p !! hwnd) eqn:E; [split; assumption |].
    unfold GetWindowProc, SetWindowProc.
    destruct (wndProcs p !! hwnd) as [w |] eqn:Ew; simpl; [| split; assumption].
    split; simpl.
    + intros h d. destruct (decide (hwnd = h)) as [<- | Hne].
      * rewrite lookup_insert_eq. intros [= <-]. simpl.
        destruct w as [| a]; [| eauto].
        destruct (I2 hwnd Ew) as [d' Hd']. congruence.
      * rewrite lookup_insert_ne by exact Hne. apply I1.
    + intros h. destruct (decide (hwnd = h)) as [<- | Hne].
      * rewrite !lookup_insert_eq. eauto.
      * rewrite !lookup_insert_ne by exact Hne. apply I2.
  - unfold uninstallSystemMenuHook.
    destruct (g_qtContextHash p !! hwnd) as [d |] eqn:E; [| split; assumption].
    destruct (I1 hwnd d E) as [a Ha]. rewrite Ha.
    unfold SetWindowProc.
    destruct (wndProcs p !! hwnd) as [w |] eqn:Ew; simpl; split; simpl.
    + intros h d'. destruct (decide (hwnd = h)) as [<- | Hne].
      * rewrite lookup_delete_eq. discriminate.
      * rewrite lookup_delete_ne by exact Hne. apply I1.
    + intros h. destruct (decide (hwnd = h)) as [<- | Hne].
      * rewrite lookup_insert_eq. discriminate.
      * rewrite lookup_insert_ne, lookup_delete_ne by exact Hne. apply I2.
    + intros h d'. destruct (decide (hwnd = h)) as [<- | Hne].
      * rewrite lookup_delete_eq. discriminate.
      * rewrite lookup_delete_ne by exact Hne. apply I1.
    + intros h. destruct (decide (hwnd = h)) as [<- | Hne].
      * rewrite Ew. discriminate.
      * rewrite lookup_delete_ne by exact Hne. apply I2.
  - split; simpl; [exact I1 |].
    intros h. destruct (decide (hwnd = h)) as [<- | Hne].
    + rewrite lookup_insert_eq. discriminate.
    + rewrite lookup_insert_ne by exact Hne. apply I2.
  - split; simpl; [exact I1 |].
    intros h. destruct (decide (hwnd = h)) as [<- | Hne].
    + rewrite lookup_delete_eq. discriminate.
    + rewrite lookup_delete_ne by exact Hne. apply I2.
Qed.

Lemma sample_process_reachable : reachable Sample.process0.
Proof.
  apply reach_start. intros h.
  destruct (decide (7 = h)) as [<- | Hne].
  - unfold Sample.process0. rewrite lookup_singleton_eq. discriminate.
  - rewrite lookup_singleton_ne by exact Hne. discriminate.
Qed.

Lemma sample_hooked_reachable : reachable Sample.hooked.
Proof. apply reach_install, sample_process_reachable. Qed.

(** The [switch] answers [true] for a designated message, with its position
    and keyboard flag. *)
Lemma systemMenuRequest_trigger (os : Os) (data : Win32QtContextData)
    (hWnd uMsg wParam lParam : Z) (pos : POINT) (kb : bool) :
  designatedTrigger os data hWnd uMsg wParam lParam pos kb ->
  systemMenuRequest os data hWnd uMsg wParam lParam = (true, kb, pos).
Proof.
  intros [Hm Hin | Hm Hw | Hm Hw Hl | Hm Halt Hspace];
    unfold systemMenuRequest, lParamPoint in *.
  - rewrite Hm, Z.eqb_refl, Hin. reflexivity.
  - rewrite Hm, Hw. reflexivity.
  - rewrite Hm, Hw, Hl. reflexivity.
  - assert (Ha : (wParam =? Win32.VK_MENU)
                 || (GetKeyState os Win32.VK_MENU <? 0) = true).
    { destruct Halt as [-> | Hk]; [reflexivity |].
      apply orb_true_iff. right. now apply Z.ltb_lt. }
    assert (Hs : (wParam =? Win32.VK_SPACE)
                 || (GetKeyState os Win32.VK_SPACE <? 0) = true).
    { destruct Hspace as [-> | Hk]; [reflexivity |].
      apply orb_true_iff. right. now apply Z.ltb_lt. }
    destruct Hm as [-> | ->]; simpl; rewrite Ha, Hs; reflexivity.
Qed.

(** It answers [true] for designated messages only. *)
Lemma systemMenuRequest_true (os : Os) (data : Win32QtContextData)
    (hWnd uMsg wParam lParam : Z) (pos : POINT) (kb : bool) :
  systemMenuRequest os data hWnd uMsg wParam lParam = (true, kb, pos) ->
  designatedTrigger os data hWnd uMsg wParam lParam pos kb.
Proof.
  unfold systemMenuRequest.
  destruct (Z.eqb_spec uMsg Win32.WM_RBUTTONUP) as [Hm | _].
  { destruct (isInTitleBarDraggableArea _ _) eqn:Hin; intros [= <- <-].
    now apply trigger_client_right_button_up. }
  destruct (Z.eqb_spec uMsg Win32.WM_NCRBUTTONUP) as [Hm | _].
  { destruct (Z.eqb_spec wParam Win32.HTCAPTION) as [Hw | _]; intros [= <- <-].
    now apply trigger_caption_right_button_up. }
  destruct (Z.eqb_spec uMsg Win32.WM_SYSCOMMAND) as [Hm | _].
  { destruct (Z.eqb_spec (Z.land wParam 0xFFF0) Win32.SC_KEYMENU) as [Hw | _];
      simpl; [| discriminate].
    destruct (Z.eqb_spec lParam Win32.VK_SPACE) as [Hl | _]; intros [= <- <-].
    now apply trigger_keyboard_command. }
  destruct ((uMsg =? Win32.WM_KEYDOWN) || (uMsg =? Win32.WM_SYSKEYDOWN)) eqn:Hm;
    [| discriminate].
  destruct ((wParam =? Win32.VK_MENU) || (GetKeyState os Win32.VK_MENU <? 0))
    eqn:Ha; simpl; [| discriminate].
  destruct ((wParam =? Win32.VK_SPACE) || (GetKeyState os Win32.VK_SPACE <? 0))
    eqn:Hs; intros [= <- <-].
  apply trigger_alt_space.
  - apply orb_true_iff in Hm. destruct Hm as [Hm | Hm];
      apply Z.eqb_eq in Hm; auto.
  - apply orb_true_iff in Ha. destruct Ha as [Ha | Ha];
      [left; now apply Z.eqb_eq | right; now apply Z.ltb_lt].
  - apply orb_true_iff in Hs. destruct Hs as [Hs | Hs];
      [left; now apply Z.eqb_eq | right; now apply Z.ltb_lt].
Qed.

(** C4.  In every state the process reaches, the replaced window procedure
    forwards the message of a window without a record to the default
    procedure; for a window with a record it shows the system menu at the
    position of a designated message and returns [0]; and any other message
    goes to the original procedure of the record. *)
Theorem hook_dispatch (os : Os) (p : Process) (hWnd uMsg wParam lParam : Z) :
  reachable p ->
  let run := SystemMenuHookWindowProc os p hWnd uMsg wParam lParam in
  (g_qtContextHash p !! hWnd = None ->
   run = DefWindowProcW hWnd uMsg wParam lParam)
  /\ (forall data,
        g_qtContextHash p !! hWnd = Some data ->
        (forall pos kb,
            designatedTrigger os data hWnd uMsg wParam lParam pos kb ->
            run = SystemMenu
                    (showSystemMenu_sys os hWnd pos kb
                       (isHostSizeFixed (contextAt os (context data))))
                    0)
        /\ ((forall pos kb,
                ~ designatedTrigger os data hWnd uMsg wParam lParam pos kb) ->
            exists orig,
              originalWindowProc data = Some orig
              /\ run = CallWindowProcW orig hWnd uMsg wParam lParam)).
Proof.
  intros Hr run. subst run. unfold SystemMenuHookWindowProc. split.
  - intros E. rewrite E. reflexivity.
  - intros data E. rewrite E. split.
    + intros pos kb Ht.
      rewrite (systemMenuRequest_trigger _ _ _ _ _ _ _ _ Ht). reflexivity.
    + intros Hnone.
      destruct (reachable_hookInvariant p Hr) as [I1 _].
      destruct (I1 hWnd data E) as [a Ha].
      exists (ForeignProc a). split; [exact Ha |].
      destruct (systemMenuRequest os data hWnd uMsg wParam lParam)
        as [[[|] kb] pos] eqn:Hreq.
      * destruct (Hnone pos kb). now apply systemMenuRequest_true.
      * rewrite Ha. reflexivity.
Qed.

(** A right-button-up on the caption of the hooked sample window. *)
Lemma hook_dispatch_witness :
  SystemMenuHookWindowProc Sample.os0 Sample.hooked 7 Win32.WM_NCRBUTTONUP
                           Win32.HTCAPTION 0
  = SystemMenu (showSystemMenu_sys Sample.os0 7 (mkPOINT 0 0) false false) 0.
Proof.
  destruct (hook_dispatch Sample.os0 Sample.hooked 7 Win32.WM_NCRBUTTONUP
              Win32.HTCAPTION 0 sample_hooked_reachable) as [_ H].
  destruct (H (mkData (Some (ForeignProc 1)) 1) eq_refl) as [Hshow _].
  apply (Hshow (mkPOINT 0 0) false).
  apply (trigger_caption_right_button_up Sample.os0 _ 7 _ _ 0); reflexivity.
Defined.

(** A right-button-up at client position (50, 10), over the title bar: the
    menu opens at the screen position of that point. *)
Example hook_client_right_button_up :
  Win32.GET_X_LPARAM 0xA0032 = 50
  /\ Win32.GET_Y_LPARAM 0xA0032 = 10
  /\ Win32.GET_X_LPARAM 0xFFFB = -5
  /\ SystemMenuHookWindowProc Sample.os0 Sample.hooked 7 Win32.WM_RBUTTONUP 0 0xA0032
     = SystemMenu (showSystemMenu_sys Sample.os0 7 (mkPOINT 150 210) false false) 0.
Proof. repeat split; reflexivity. Qed.

Example hook_forwards_other_messages :
  SystemMenuHookWindowProc Sample.os0 Sample.hooked 7 0x200 0 0
  = CallWindowProcW (ForeignProc 1) 7 0x200 0 0.
Proof. reflexivity. Qed.

(** Installing on a window without a record and uninstalling again gives back
    the process as it was. *)
Lemma install_uninstall_fresh (hwnd ctx : Z) (p : Process) :
  g_qtContextHash p !! hwnd = None ->
  uninstallSystemMenuHook hwnd (installSystemMenuHook hwnd ctx p) = p.
Proof.
  intros E. unfold installSystemMenuHook. rewrite E.
  unfold GetWindowProc, SetWindowProc.
  destruct (wndProcs p !! hwnd) as [w |] eqn:Ew; simpl.
  - unfold uninstallSystemMenuHook; simpl. rewrite lookup_insert_eq; simpl.
    unfold SetWindowProc; simpl. rewrite lookup_insert_eq; simpl.
    rewrite insert_insert_eq, (insert_id _ _ _ Ew), (delete_insert_id _ _ _ E).
    destruct p; reflexivity.
  - unfold uninstallSystemMenuHook. rewrite E. reflexivity.
Qed.

(** C5.  In every state the process reaches, installing the hook for a
    window and uninstalling it leaves no record for the window and puts
    back the procedure the record held as the original one; if the window
    had no record before, the whole process state is as it was.  Messages
    sent to the window afterwards go to that procedure, never to the
    replacement. *)
Theorem install_uninstall_restores (hwnd ctx : Z) (p : Process) :
  reachable p ->
  let p1 := installSystemMenuHook hwnd ctx p in
  let p2 := uninstallSystemMenuHook hwnd p1 in
  g_qtContextHash p2 !! hwnd = None
  /\ (forall data,
        g_qtContextHash p1 !! hwnd = Some data ->
        is_Some (GetWindowProc p1 hwnd) ->
        GetWindowProc p2 hwnd = originalWindowProc data)
  /\ (g_qtContextHash p !! hwnd = None -> p2 = p)
  /\ GetWindowProc p2 hwnd <> Some SystemMenuHookWindowProcPtr
  /\ (forall os uMsg wParam lParam,
        deliver os p2 hwnd uMsg wParam lParam
        = (fun orig => CallWindowProcW orig hwnd uMsg wParam lParam)
            <$> GetWindowProc p2 hwnd).
Proof.
  intros Hr p1 p2.
  assert (Hr2 : reachable p2) by (apply reach_uninstall, reach_install, Hr).
  assert (Hgone : g_qtContextHash p2 !! hwnd = None).
  { subst p2. unfold uninstallSystemMenuHook.
    destruct (g_qtContextHash p1 !! hwnd) eqn:E; [| exact E].
    simpl. destruct (originalWindowProc _); [unfold SetWindowProc |];
      try destruct (wndProcs p1 !! hwnd); simpl; apply lookup_delete_eq. }
  assert (Hnot : GetWindowProc p2 hwnd <> Some SystemMenuHookWindowProcPtr).
  { intros Hh. destruct (reachable_hookInvariant p2 Hr2) as [_ I2].
    destruct (I2 hwnd Hh) as [d Hd]. congruence. }
  split; [exact Hgone |]. split; [| split; [| split; [exact Hnot |]]].
  - intros data Hd [w Hw].
    assert (Hr1 : reachable p1) by (apply reach_install, Hr).
    destruct (reachable_hookInvariant p1 Hr1) as [I1 _].
    destruct (I1 hwnd data Hd) as [a Ha].
    subst p2. unfold uninstallSystemMenuHook, GetWindowProc in *.
    rewrite Hd, Ha. unfold SetWindowProc. rewrite Hw. simpl.
    apply lookup_insert_eq.
  - intros E. apply install_uninstall_fresh, E.
  - intros os uMsg wParam lParam. unfold deliver.
    destruct (GetWindowProc p2 hwnd) as [[| a] |]; [| reflexivity | reflexivity].
    now destruct Hnot.
Qed.

(** The sample window: hooked, then unhooked. *)
Lemma install_uninstall_restores_witness :
  uninstallSystemMenuHook 7 (installSystemMenuHook 7 1 Sample.process0)
  = Sample.process0
  /\ deliver Sample.os0
       (uninstallSystemMenuHook 7 (installSystemMenuHook 7 1 Sample.process0))
       7 Win32.WM_NCRBUTTONUP Win32.HTCAPTION 0
     = Some (CallWindowProcW (ForeignProc 1) 7 Win32.WM_NCRBUTTONUP
                             Win32.HTCAPTION 0).
Proof.
  destruct (install_uninstall_restores 7 1 Sample.process0
              sample_process_reachable) as (_ & _ & Hsame & _ & Hdel).
  split.
  - apply Hsame. reflexivity.
  - rewrite Hdel. reflexivity.
Defined.

Example hooked_window_gets_the_replacement :
  GetWindowProc Sample.hooked 7 = Some SystemMenuHookWindowProcPtr
  /\ g_qtContextHash Sample.hooked !! 7 = Some (mkData (Some (ForeignProc 1)) 1).
Proof. split; reflexivity. Qed.

(** C6.  Installing the hook for a window that has a record changes
    nothing: the table, the procedure in place and the recorded original
    stay as the first installation left them; and installing twice is the
    same as installing once. *)
Theorem install_idempotent (hwnd ctx ctx' : Z) (p : Process) :
  (is_Some (g_qtContextHash p !! hwnd) -> installSystemMenuHook hwnd ctx p = p)
  /\ installSystemMenuHook hwnd ctx' (installSystemMenuHook hwnd ctx p)
     = installSystemMenuHook hwnd ctx p.
Proof.
  assert (Hpresent : forall c q,
             is_Some (g_qtContextHash q !! hwnd) ->
             installSystemMenuHook hwnd c q = q).
  { intros c q [d Hd]. unfold installSystemMenuHook. rewrite Hd. reflexivity. }
  split; [apply Hpresent |].
  destruct (g_qtContextHash p !! hwnd) as [d |] eqn:E.
  - rewrite (Hpresent ctx p) by eauto. apply Hpresent. eauto.
  - destruct (wndProcs p !! hwnd) as [w |] eqn:Ew.
    + apply Hpresent.
      unfold installSystemMenuHook, GetWindowProc, SetWindowProc.
      rewrite E, Ew. simpl. rewrite lookup_insert_eq. eauto.
    + assert (Hsame : forall c, installSystemMenuHook hwnd c p = p).
      { intros c. unfold installSystemMenuHook, GetWindowProc.
        rewrite E, Ew. reflexivity. }
      rewrite (Hsame ctx). apply Hsame.
Qed.

(** A second installation for the hooked sample window, by another context. *)
Lemma install_idempotent_witness :
  installSystemMenuHook 7 2 Sample.hooked = Sample.hooked.
Proof.
  apply (proj1 (install_idempotent 7 2 2 Sample.hooked)).
  exists (mkData (Some (ForeignProc 1)) 1). reflexivity.
Defined.

(** * Hit testing: further properties *)

(** The edge set is empty exactly where the cursor is the arrow. *)
Lemma arrow_iff_no_edges (window : option QWindow) (pos : QPoint) :
  calculateCursorShape window pos = Qt.ArrowCursor
  <-> calculateWindowEdges window pos = 0.
Proof.
  destruct window as [win |]; [| split; reflexivity].
  unfold calculateCursorShape, calculateWindowEdges,
         kDefaultResizeBorderThickness.
  destruct (Qt.isWindowed (visibility win)); simpl; [| split; reflexivity].
  bands; simpl; split; intros Hx; try reflexivity;
    try discriminate Hx; vm_compute in Hx; discriminate Hx.
Qed.

(** X1.  The two hit-test functions agree everywhere: the cursor shape is
    the one that belongs to the edge set, for every window (null, windowed
    or not, of any size) and every position. *)
Theorem cursor_follows_edges (window : option QWindow) (pos : QPoint) :
  calculateCursorShape window pos
  = cursorForEdges (calculateWindowEdges window pos).
Proof.
  destruct window as [win |]; [| reflexivity].
  unfold calculateCursorShape, calculateWindowEdges,
         kDefaultResizeBorderThickness.
  destruct (Qt.isWindowed (visibility win)); simpl; [| reflexivity].
  bands; reflexivity.
Qed.

(** X2.  In a windowed window, a pointer within the border thickness of
    one edge and of no other gets the edge set of that edge alone, and the
    horizontal cursor for the left or right edge, the vertical one for the
    top or bottom edge. *)
Theorem single_edge_hit (win : QWindow) (pos : QPoint) (e : Edge) :
  visibility win = Qt.Windowed ->
  nearEdge win pos e ->
  (forall e', nearEdge win pos e' -> e' = e) ->
  edgeMembers (calculateWindowEdges (Some win) pos) = [e]
  /\ calculateWindowEdges (Some win) pos = edgeBit e
  /\ calculateCursorShape (Some win) pos = edgeCursor e.
Proof.
  intros Hv He Hex.
  pose proof (Hex Top) as Ht. pose proof (Hex Left) as Hl.
  pose proof (Hex Right) as Hr. pose proof (Hex Bottom) as Hb.
  clear Hex.
  unfold calculateCursorShape, calculateWindowEdges. rewrite Hv.
  unfold nearEdge, kDefaultResizeBorderThickness in *.
  destruct e; simpl in *; bands; simpl;
    try solve [exfalso; lia];
    try solve [exfalso;
               match goal with
               | H : _ -> _ = _ |- _ =>
                 assert (E := H ltac:(lia)); discriminate E
               end];
    repeat split; reflexivity.
Qed.

(** The top band of the 640 by 480 window. *)
Lemma single_edge_hit_witness :
  edgeMembers (calculateWindowEdges (Some Sample.win640) (mkQPoint 320 2)) = [Top]
  /\ calculateWindowEdges (Some Sample.win640) (mkQPoint 320 2) = Qt.TopEdge
  /\ calculateCursorShape (Some Sample.win640) (mkQPoint 320 2) = Qt.SizeVerCursor.
Proof.
  apply (single_edge_hit Sample.win640 (mkQPoint 320 2) Top).
  - reflexivity.
  - unfold nearEdge, kDefaultResizeBorderThickness; simpl. lia.
  - intros [] He; unfold nearEdge, kDefaultResizeBorderThickness in He;
      simpl in He; first [reflexivity | exfalso; lia].
Defined.

(** X3.  In a window at least 16 wide and 16 high the edge set has at most
    two members and never holds two opposite edges, so a resize is always
    started with an edge or a corner. *)
Theorem edges_never_opposite (win : QWindow) (pos : QPoint) :
  2 * kDefaultResizeBorderThickness <= width win ->
  2 * kDefaultResizeBorderThickness <= height win ->
  let members := edgeMembers (calculateWindowEdges (Some win) pos) in
  (length members <= 2)%nat
  /\ (forall a b, In a members -> In b members -> opposite a b = false).
Proof.
  intros Hw Hh.
  unfold calculateWindowEdges, kDefaultResizeBorderThickness in *.
  destruct (Qt.isWindowed (visibility win)); simpl;
    [| split; [lia | intros a b []]].
  bands; try solve [exfalso; lia]; vm_compute edgeMembers;
    (split; [simpl; lia |]);
    intros a b Ha Hb; simpl in Ha, Hb;
    repeat match goal with
    | H : _ \/ _ |- _ => destruct H
    | H : False |- _ => destruct H
    end; subst; reflexivity.
Qed.

Lemma edges_never_opposite_witness :
  (length (edgeMembers (calculateWindowEdges (Some Sample.win640)
                                             (mkQPoint 637 477))) <= 2)%nat.
Proof.
  apply (edges_never_opposite Sample.win640 (mkQPoint 637 477)).
  - unfold kDefaultResizeBorderThickness; simpl. lia.
  - unfold kDefaultResizeBorderThickness; simpl. lia.
Defined.

(** * The pointer state machine: further properties *)

(** Case analysis of one run of the filter, test by test. *)
Ltac filter_atoms :=
  repeat (simpl;
    match goal with
    | |- context [Z.eqb ?a ?b] => destruct (Z.eqb_spec a b)
    | |- context [Z.ltb ?a ?b] => destruct (Z.ltb_spec a b)
    | |- context [Z.gtb ?a ?b] => rewrite (Z.gtb_ltb a b); destruct (Z.ltb_spec b a)
    | |- context [isHostSizeFixed ?c] =>
      is_var c; destruct (isHostSizeFixed c) eqn:?
    | |- context [isInTitleBarDraggableArea ?c (scenePos ?e)] =>
      is_var c; is_var e; destruct (isInTitleBarDraggableArea c (scenePos e)) eqn:?
    | |- context [button ?e] => is_var e; destruct (button e) eqn:?
    | |- context [m_windowStatus ?s] =>
      is_var s; destruct (m_windowStatus s) eqn:?
    | |- context [m_cursorShapeChanged ?s] =>
      is_var s; destruct (m_cursorShapeChanged s) eqn:?
    | |- context [calculateCursorShape (window ?c) (scenePos ?e)] =>
      is_var c; is_var e;
      destruct (calculateCursorShape (window c) (scenePos e)) eqn:?
    | |- context [Qt.testAny (hostFlags ?c) ?b] =>
      is_var c; destruct (Qt.testAny (hostFlags c) b) eqn:?
    | |- context [Qt.testAny (hostState ?c) ?b] =>
      is_var c; destruct (Qt.testAny (hostState c) b) eqn:?
    end).

Ltac filter_cases :=
  unfold sharedEventFilter, onMouseButtonPress, onMouseButtonRelease,
         onMouseMove, onMouseButtonDblClick;
  filter_atoms.

(** X4.  What an event leaves alone.  Only a double-click changes the
    context, and then only the window state; only a move changes the
    cursor flag; a double-click never changes the filter; an event that is
    not one of the four mouse events changes nothing, calls nothing and is
    forwarded. *)
Theorem filter_frame (ctx : Context) (self : Filter) (e : QMouseEvent) :
  let o := sharedEventFilter ctx self e in
  (etype e <> Qt.MouseButtonDblClick -> contextAfter o = ctx)
  /\ contextAfter o = setHostState ctx (hostState (contextAfter o))
  /\ (etype e <> Qt.MouseMove ->
      m_cursorShapeChanged (filterAfter o) = m_cursorShapeChanged self)
  /\ (etype e = Qt.MouseButtonDblClick -> filterAfter o = self)
  /\ (etype e < Qt.MouseButtonPress \/ Qt.MouseMove < etype e ->
      o = mkOutcome false self ctx []).
Proof.
  assert (Hid : setHostState ctx (hostState ctx) = ctx) by (destruct ctx; reflexivity).
  cbv zeta. filter_cases;
    (split; [intros; try reflexivity; try congruence |]);
    (split; [try (symmetry; exact Hid); try reflexivity |]);
    (split; [intros; try reflexivity; try congruence |]);
    (split; [intros; try reflexivity; try (unfold Qt.MouseButtonDblClick,
               Qt.MouseButtonPress, Qt.MouseButtonRelease, Qt.MouseMove in *; lia)
            |]);
    intros; try reflexivity;
    unfold Qt.MouseButtonDblClick, Qt.MouseButtonPress, Qt.MouseButtonRelease,
           Qt.MouseMove in *; lia.
Qed.

(** A key press (event type 6) over the title bar. *)
Lemma filter_frame_witness :
  sharedEventFilter Sample.ctx640 (mkFilter true Moving)
    (mkQMouseEvent 6 Qt.LeftButton (mkQPoint 320 3) (mkQPoint 320 3))
  = mkOutcome false (mkFilter true Moving) Sample.ctx640 [].
Proof.
  apply (filter_frame Sample.ctx640 (mkFilter true Moving)
           (mkQMouseEvent 6 Qt.LeftButton (mkQPoint 320 3) (mkQPoint 320 3))).
  right. unfold Qt.MouseMove; simpl. lia.
Defined.

(** X5.  An event the filter accepts is swallowed; and a swallowed event
    was accepted, except a move during a system move, which is swallowed
    without being accepted. *)
Theorem accept_and_swallow (ctx : Context) (self : Filter) (e : QMouseEvent) :
  let o := sharedEventFilter ctx self e in
  (In Accept (calls o) -> swallowed o = true)
  /\ (swallowed o = true ->
      In Accept (calls o)
      \/ (etype e = Qt.MouseMove /\ m_windowStatus self = Moving /\ calls o = [])).
Proof.
  cbv zeta. filter_cases; split; intros Hx;
    try reflexivity; try discriminate Hx;
    try (simpl in Hx; intuition discriminate);
    try (left; simpl; tauto);
    right; auto.
Qed.

Lemma accept_and_swallow_witness :
  swallowed (sharedEventFilter Sample.ctx640 initialFilter (Sample.press 320 20))
  = true.
Proof.
  apply (accept_and_swallow Sample.ctx640 initialFilter (Sample.press 320 20)).
  simpl. tauto.
Defined.

(** X6.  For a fixed-size window no event starts a resize, sets or
    restores a cursor shape or sets the window state: the only calls are
    the system move, the system menu and the acceptance of the event, and
    the context and the cursor flag stay as they are. *)
Theorem fixed_size_calls (ctx : Context) (self : Filter) (e : QMouseEvent) :
  isHostSizeFixed ctx = true ->
  let o := sharedEventFilter ctx self e in
  contextAfter o = ctx
  /\ m_cursorShapeChanged (filterAfter o) = m_cursorShapeChanged self
  /\ (forall c, In c (calls o) ->
        c = Accept \/ c = StartSystemMove \/ exists q, c = ShowSystemMenu q).
Proof.
  intros Hf. cbv zeta. revert Hf. filter_cases; intros Hf;
    try discriminate Hf;
    (split; [reflexivity |]); (split; [reflexivity |]);
    intros c Hc; simpl in Hc;
    repeat match goal with
    | H : _ \/ _ |- _ => destruct H
    | H : False |- _ => destruct H
    end; subst; eauto.
Qed.

(** A press on the top border of a fixed-size window prepares a move. *)
Lemma fixed_size_calls_witness :
  contextAfter (sharedEventFilter fixedCtx640 initialFilter (Sample.press 320 3))
  = fixedCtx640.
Proof.
  apply (fixed_size_calls fixedCtx640 initialFilter (Sample.press 320 3)).
  reflexivity.
Defined.

(** X7.  A system resize is started only by a left press on a window that
    is not fixed-size, is in the windowed state, and has a border edge
    under the pointer; it is started with that edge set, the press is
    swallowed and the machine is in [Resizing]. *)
Theorem resize_start (ctx : Context) (self : Filter) (e : QMouseEvent)
    (edges : Z) :
  let o := sharedEventFilter ctx self e in
  In (StartSystemResize edges) (calls o) ->
  etype e = Qt.MouseButtonPress
  /\ button e = Qt.LeftButton
  /\ isHostSizeFixed ctx = false
  /\ (exists win, window ctx = Some win /\ visibility win = Qt.Windowed)
  /\ edges = calculateWindowEdges (window ctx) (scenePos e)
  /\ edges <> 0
  /\ swallowed o = true
  /\ m_windowStatus (filterAfter o) = Resizing.
Proof.
  assert (Hwin : forall q, calculateWindowEdges (window ctx) q <> 0 ->
                 exists win, window ctx = Some win /\ visibility win = Qt.Windowed).
  { intros q Hq. destruct (window ctx) as [win |]; [| now destruct Hq].
    exists win. split; [reflexivity |].
    unfold calculateWindowEdges in Hq.
    destruct (visibility win); simpl in Hq; try (now destruct Hq). reflexivity. }
  cbv zeta. filter_cases; intros Hx; simpl in Hx;
    try (exfalso; intuition discriminate);
    (destruct Hx as [[= <-] | [Hx | []]]; [| discriminate Hx]);
    repeat (split; [solve [eauto] |]); reflexivity.
Qed.

Lemma resize_start_witness :
  m_windowStatus
    (filterAfter (sharedEventFilter Sample.ctx640 initialFilter (Sample.press 3 3)))
  = Resizing.
Proof.
  apply (resize_start Sample.ctx640 initialFilter (Sample.press 3 3)
           (Z.lor Qt.LeftEdge Qt.TopEdge)).
  simpl. left. reflexivity.
Defined.

(** X8.  The cursor tells what a press would do.  On a window that is not
    fixed-size, a move in [Idle] sets a resize cursor exactly at the
    positions where a left press starts a resize. *)
Theorem cursor_shows_resize (ctx : Context) (self other : Filter)
    (move press : QMouseEvent) :
  isHostSizeFixed ctx = false ->
  m_windowStatus self = Idle ->
  etype move = Qt.MouseMove ->
  etype press = Qt.MouseButtonPress ->
  button press = Qt.LeftButton ->
  scenePos move = scenePos press ->
  (exists shape, calls (sharedEventFilter ctx self move) = [SetCursorShape shape])
  <-> m_windowStatus (filterAfter (sharedEventFilter ctx other press)) = Resizing.
Proof.
  intros Hf Hs Hm Hp Hb Hpos.
  rewrite (filter_move _ _ _ Hm), (filter_press _ _ _ Hp).
  unfold onMouseMove, onMouseButtonPress. rewrite Hf, Hs, Hb, Hpos. simpl.
  pose proof (arrow_iff_no_edges (window ctx) (scenePos press)) as Harrow.
  destruct (calculateCursorShape (window ctx) (scenePos press)) eqn:Hc;
    destruct (Z.eqb_spec (calculateWindowEdges (window ctx) (scenePos press)) 0)
      as [He | He]; simpl;
    try (exfalso; apply He, Harrow; reflexivity);
    try (apply Harrow in He; discriminate He);
    try (split; [intros _; reflexivity | intros _; eauto]).
  split.
  - intros [shape Hx]. destruct (m_cursorShapeChanged self); discriminate Hx.
  - intros Hx.
    destruct (isInTitleBarDraggableArea ctx (scenePos press)); discriminate Hx.
Qed.

Lemma cursor_shows_resize_witness :
  exists shape,
    calls (sharedEventFilter Sample.ctx640 initialFilter (Sample.move 3 3))
    = [SetCursorShape shape].
Proof.
  apply (cursor_shows_resize Sample.ctx640 initialFilter initialFilter
           (Sample.move 3 3) (Sample.press 3 3));
    reflexivity.
Defined.

(** X9.  A press and the release that follows it are swallowed together or
    forwarded together, whatever the button and the place, and the machine
    is in [Idle] after the pair; a forwarded release calls nothing. *)
Theorem press_release_pair (ctx : Context) (self : Filter)
    (press release : QMouseEvent) :
  etype press = Qt.MouseButtonPress ->
  etype release = Qt.MouseButtonRelease ->
  let o1 := sharedEventFilter ctx self press in
  let o2 := thenEvent o1 release in
  swallowed o2 = swallowed o1
  /\ m_windowStatus (filterAfter o2) = Idle
  /\ contextAfter o2 = ctx
  /\ (swallowed o1 = false -> calls o2 = []).
Proof.
  intros Hp Hr. cbv zeta. unfold thenEvent.
  rewrite (filter_press _ _ _ Hp).
  unfold onMouseButtonPress.
  destruct (button press);
    repeat match goal with
    | |- context [if ?c then _ else _] => destruct c
    end; simpl; rewrite (filter_release _ _ _ Hr);
    unfold onMouseButtonRelease; simpl;
    repeat split; intros; try reflexivity; discriminate.
Qed.

(** A left press on the content of the window, and its release. *)
Lemma press_release_pair_witness :
  swallowed (thenEvent
               (sharedEventFilter Sample.ctx640 initialFilter (Sample.press 320 240))
               (Sample.release 320 240))
  = false.
Proof.
  destruct (press_release_pair Sample.ctx640 initialFilter
              (Sample.press 320 240) (Sample.release 320 240) eq_refl eq_refl)
    as (H & _).
  rewrite H. reflexivity.
Defined.

(** ** Sequences of events *)

(** One event, seen from the cursor calls that follow it. *)
Lemma cursor_step (ctx : Context) (self : Filter) (e : QMouseEvent)
    (rest : list Call) :
  let o := sharedEventFilter ctx self e in
  cursorCallsOk (m_cursorShapeChanged self) (calls o ++ rest)
  = cursorCallsOk (m_cursorShapeChanged (filterAfter o)) rest
  /\ cursorOverridden (m_cursorShapeChanged self) (calls o ++ rest)
     = cursorOverridden (m_cursorShapeChanged (filterAfter o)) rest.
Proof. cbv zeta. filter_cases; try congruence; split; reflexivity. Qed.

(** X10.  Over any sequence of events, the cursor calls are in order: a
    shape is restored only while one set by the filter is in place (so
    never twice in a row, and never before a shape was set), the arrow is
    never set as a shape, and [m_cursorShapeChanged] at the end tells
    whether a shape is in place. *)
Theorem cursor_calls_in_order (events : list QMouseEvent) (ctx : Context)
    (self : Filter) :
  let r := runEvents ctx self events in
  cursorCallsOk (m_cursorShapeChanged self) (trace r) = true
  /\ m_cursorShapeChanged (filterEnd r)
     = cursorOverridden (m_cursorShapeChanged self) (trace r).
Proof.
  revert ctx self. induction events as [| e rest IH]; intros ctx self.
  - split; reflexivity.
  - simpl.
    destruct (cursor_step ctx self e
                (trace (runEvents (contextAfter (sharedEventFilter ctx self e))
                                  (filterAfter (sharedEventFilter ctx self e))
                                  rest))) as [Hok Hov].
    rewrite Hok, Hov. apply IH.
Qed.

(** One event, seen from the system moves it may start. *)
Lemma move_step (ctx : Context) (self : Filter) (e : QMouseEvent) :
  let o := sharedEventFilter ctx self e in
  let preparing (s : WindowStatus) :=
    match s with PreparingMove => 1%nat | _ => 0%nat end in
  (countCalls isStartSystemMove (calls o)
   + preparing (m_windowStatus (filterAfter o))
   <= (if isTitlePress ctx e then 1 else 0) + preparing (m_windowStatus self))%nat.
Proof.
  cbv zeta. unfold isTitlePress, countCalls.
  filter_cases; simpl; try lia;
    unfold Qt.MouseButtonDblClick, Qt.MouseButtonPress, Qt.MouseButtonRelease,
           Qt.MouseMove in *; congruence.
Qed.

Lemma runEvents_title (ctx : Context) (self : Filter) (e : QMouseEvent) :
  isTitlePress (contextAfter (sharedEventFilter ctx self e)) = isTitlePress ctx.
Proof.
  destruct (filter_keeps_surroundings ctx self e) as (_ & _ & Ht & _).
  unfold isTitlePress. simpl in Ht. rewrite Ht. reflexivity.
Qed.

Lemma moves_bounded (events : list QMouseEvent) (ctx : Context) (self : Filter) :
  let r := runEvents ctx self events in
  let preparing (s : WindowStatus) :=
    match s with PreparingMove => 1%nat | _ => 0%nat end in
  (countCalls isStartSystemMove (trace r) + preparing (m_windowStatus (filterEnd r))
   <= length (List.filter (isTitlePress ctx) events)
      + preparing (m_windowStatus self))%nat.
Proof.
  revert ctx self. induction events as [| e rest IH]; intros ctx self.
  - simpl. lia.
  - pose proof (move_step ctx self e) as Hstep.
    pose proof (IH (contextAfter (sharedEventFilter ctx self e))
                   (filterAfter (sharedEventFilter ctx self e))) as Hrest.
    cbv zeta in *. rewrite runEvents_title in Hrest.
    simpl. unfold countCalls in *.
    rewrite List.filter_app, length_app.
    destruct (isTitlePress ctx e); simpl; lia.
Qed.

(** X11.  Over any sequence of events that starts in a state other than
    [PreparingMove], a system move is started at most once for each left
    press in the title area. *)
Theorem system_moves_need_title_presses (events : list QMouseEvent)
    (ctx : Context) (self : Filter) :
  m_windowStatus self <> PreparingMove ->
  (countCalls isStartSystemMove (trace (runEvents ctx self events))
   <= length (List.filter (isTitlePress ctx) events))%nat.
Proof.
  intros Hs. pose proof (moves_bounded events ctx self) as H. cbv zeta in H.
  destruct (m_windowStatus self); try (now destruct Hs); lia.
Qed.

(** Moves alone, however many, start no system move. *)
Lemma system_moves_need_title_presses_witness :
  (countCalls isStartSystemMove
     (trace (runEvents Sample.ctx640 initialFilter
                       [Sample.move 320 20; Sample.move 321 20; Sample.release 321 20]))
   <= 0)%nat.
Proof.
  apply (system_moves_need_title_presses
           [Sample.move 320 20; Sample.move 321 20; Sample.release 321 20]
           Sample.ctx640 initialFilter).
  discriminate.
Defined.

(** A left press in the title area that starts no resize. *)
Lemma title_press_prepares (ctx : Context) (self : Filter) (press : QMouseEvent) :
  titlePress ctx press ->
  noResizeAt ctx (scenePos press) ->
  sharedEventFilter ctx self press
  = mkOutcome true (setStatus self PreparingMove) ctx [Accept].
Proof.
  intros (Ht & Hb & Hin) Hno. rewrite (filter_press _ _ _ Ht).
  unfold onMouseButtonPress. rewrite Hb, Hin.
  destruct Hno as [Hf | He].
  - rewrite Hf. reflexivity.
  - rewrite He. simpl. rewrite andb_false_r. reflexivity.
Qed.

(** During a system move, moves are swallowed and the release ends it. *)
Lemma moving_until_release (moves : list QMouseEvent) (ctx : Context)
    (self : Filter) (release : QMouseEvent) :
  Forall (fun e => etype e = Qt.MouseMove) moves ->
  m_windowStatus self = Moving ->
  etype release = Qt.MouseButtonRelease ->
  runEvents ctx self (moves ++ [release])
  = mkRun (repeat true (S (length moves))) (setStatus self Idle) ctx [Accept].
Proof.
  intros Hm Hs Hr. induction Hm as [| m ms Hmove _ IH]; simpl.
  - rewrite (filter_release _ _ _ Hr). unfold onMouseButtonRelease.
    rewrite Hs. reflexivity.
  - rewrite (filter_move _ _ _ Hmove). unfold onMouseMove. rewrite Hs. simpl.
    rewrite IH. reflexivity.
Qed.

(** X12.  A drag of the title bar.  A left press in the title area that
    starts no resize, one or more moves and the release: every event is
    swallowed, the system move is started once, on the first move, and
    nothing else is called; the machine ends in [Idle] and the context and
    the cursor flag are as before. *)
Theorem title_drag (ctx : Context) (self : Filter) (press first release : QMouseEvent)
    (moves : list QMouseEvent) :
  titlePress ctx press ->
  noResizeAt ctx (scenePos press) ->
  Forall (fun e => etype e = Qt.MouseMove) (first :: moves) ->
  etype release = Qt.MouseButtonRelease ->
  runEvents ctx self (press :: first :: moves ++ [release])
  = mkRun (repeat true (length moves + 3)) (setStatus self Idle) ctx
          [Accept; StartSystemMove; Accept; Accept].
Proof.
  intros Hp Hno Hm Hr. inversion Hm as [| x l Hfirst Hrest]; subst.
  change (runEvents ctx self (press :: first :: moves ++ [release]))
    with (let o := sharedEventFilter ctx self press in
          let r := runEvents (contextAfter o) (filterAfter o)
                             (first :: moves ++ [release]) in
          mkRun (swallowed o :: answers r) (filterEnd r) (contextEnd r)
                (calls o ++ trace r)).
  rewrite (title_press_prepares ctx self press Hp Hno). cbv zeta.
  simpl. rewrite (filter_move _ _ _ Hfirst). unfold onMouseMove. simpl.
  rewrite (moving_until_release moves ctx
             (setStatus (setStatus self PreparingMove) Moving) release
             Hrest eq_refl Hr). simpl.
  replace (length moves + 3)%nat with (S (S (S (length moves)))) by lia.
  reflexivity.
Qed.

Lemma title_drag_witness :
  trace (runEvents Sample.ctx640 initialFilter
           (Sample.press 320 20
              :: Sample.move 321 20 :: [Sample.move 330 25] ++ [Sample.release 330 25]))
  = [Accept; StartSystemMove; Accept; Accept].
Proof.
  rewrite (title_drag Sample.ctx640 initialFilter (Sample.press 320 20)
             (Sample.move 321 20) (Sample.release 330 25) [Sample.move 330 25]).
  - reflexivity.
  - repeat split; reflexivity.
  - right. reflexivity.
  - repeat constructor.
  - reflexivity.
Defined.

(** During a resize, moves are forwarded untouched and the release is
    swallowed. *)
Lemma resizing_until_release (moves : list QMouseEvent) (ctx : Context)
    (self : Filter) (release : QMouseEvent) :
  Forall (fun e => etype e = Qt.MouseMove) moves ->
  m_windowStatus self = Resizing ->
  etype release = Qt.MouseButtonRelease ->
  runEvents ctx self (moves ++ [release])
  = mkRun (repeat false (length moves) ++ [true]) (setStatus self Idle) ctx [Accept].
Proof.
  intros Hm Hs Hr. induction Hm as [| m ms Hmove _ IH]; simpl.
  - rewrite (filter_release _ _ _ Hr). unfold onMouseButtonRelease.
    rewrite Hs. reflexivity.
  - rewrite (filter_move _ _ _ Hmove). unfold onMouseMove. rewrite Hs. simpl.
    rewrite IH. reflexivity.
Qed.

(** X13.  A drag of the border.  A left press on a border edge of a window
    that is not fixed-size, any number of moves and the release: the press
    and the release are swallowed and the moves forwarded, the system
    resize is started once with the edge set under the press, no cursor
    shape is set during the drag, and the machine ends in [Idle]. *)
Theorem border_drag (ctx : Context) (self : Filter) (press release : QMouseEvent)
    (moves : list QMouseEvent) :
  etype press = Qt.MouseButtonPress ->
  button press = Qt.LeftButton ->
  isHostSizeFixed ctx = false ->
  calculateWindowEdges (window ctx) (scenePos press) <> 0 ->
  Forall (fun e => etype e = Qt.MouseMove) moves ->
  etype release = Qt.MouseButtonRelease ->
  runEvents ctx self (press :: moves ++ [release])
  = mkRun (true :: repeat false (length moves) ++ [true]) (setStatus self Idle) ctx
          [StartSystemResize (calculateWindowEdges (window ctx) (scenePos press));
           Accept; Accept].
Proof.
  intros Hp Hb Hf He Hm Hr.
  change (runEvents ctx self (press :: moves ++ [release]))
    with (let o := sharedEventFilter ctx self press in
          let r := runEvents (contextAfter o) (filterAfter o) (moves ++ [release]) in
          mkRun (swallowed o :: answers r) (filterEnd r) (contextEnd r)
                (calls o ++ trace r)).
  rewrite (filter_press _ _ _ Hp). unfold onMouseButtonPress.
  rewrite Hb, Hf. apply Z.eqb_neq in He. rewrite He. cbv zeta. simpl.
  rewrite (resizing_until_release moves ctx (setStatus self Resizing) release
             Hm eq_refl Hr).
  reflexivity.
Qed.

Lemma border_drag_witness :
  trace (runEvents Sample.ctx640 initialFilter
           (Sample.press 637 477 :: [Sample.move 650 490] ++ [Sample.release 650 490]))
  = [StartSystemResize (Z.lor Qt.RightEdge Qt.BottomEdge); Accept; Accept].
Proof.
  rewrite (border_drag Sample.ctx640 initialFilter (Sample.press 637 477)
             (Sample.release 650 490) [Sample.move 650 490]).
  - reflexivity.
  - reflexivity.
  - reflexivity.
  - reflexivity.
  - vm_compute. discriminate.
  - repeat constructor.
  - reflexivity.
Defined.

(** ** Double-clicks *)

Lemma testAny_bit (flags n : Z) :
  0 <= n -> Qt.testAny flags (2 ^ n) = Z.testbit flags n.
Proof.
  intros Hn. unfold Qt.testAny.
  assert (Hland : Z.land flags (2 ^ n) = if Z.testbit flags n then 2 ^ n else 0).
  { apply Z.bits_inj'. intros i Hi.
    rewrite Z.land_spec, Z.pow2_bits_eqb by exact Hn.
    destruct (Z.eqb_spec n i) as [<- | Hne].
    - rewrite andb_true_r. destruct (Z.testbit flags n).
      + rewrite Z.pow2_bits_eqb by exact Hn. symmetry. apply Z.eqb_refl.
      + symmetry. apply Z.bits_0.
    - rewrite andb_false_r. destruct (Z.testbit flags n).
      + rewrite Z.pow2_bits_eqb by exact Hn. symmetry. now apply Z.eqb_neq.
      + symmetry. apply Z.bits_0. }
  rewrite Hland. destruct (Z.testbit flags n); [| reflexivity].
  assert (0 < 2 ^ n) by (apply Z.pow_pos_nonneg; lia).
  destruct (Z.eqb_spec (2 ^ n) 0); [lia | reflexivity].
Qed.

Lemma toggleMaximized_bits (st i : Z) :
  0 <= i ->
  Z.testbit (toggleMaximized st) i
  = if i =? 1 then negb (Z.testbit st 1) else Z.testbit st i.
Proof.
  intros Hi. unfold toggleMaximized. rewrite testAny_WindowMaximized.
  destruct (Z.testbit st 1) eqn:Hb.
  - rewrite clear_WindowMaximized_bits by exact Hi. reflexivity.
  - rewrite set_WindowMaximized_bits by exact Hi. reflexivity.
Qed.

Lemma toggleMaximized_twice (st : Z) : toggleMaximized (toggleMaximized st) = st.
Proof.
  apply Z.bits_inj'. intros i Hi.
  rewrite !toggleMaximized_bits by lia. simpl.
  destruct (Z.eqb_spec i 1) as [-> | _]; [apply negb_involutive | reflexivity].
Qed.

Lemma toggleMaximized_fullScreen (st : Z) :
  Qt.testAny (toggleMaximized st) Qt.WindowFullScreen
  = Qt.testAny st Qt.WindowFullScreen.
Proof.
  change Qt.WindowFullScreen with (2 ^ 2).
  rewrite !testAny_bit by lia. rewrite toggleMaximized_bits by lia. reflexivity.
Qed.

Lemma title_double_click_outcome (ctx : Context) (self : Filter) (e : QMouseEvent) :
  titleDoubleClick ctx e ->
  maximizableByDoubleClick ctx ->
  sharedEventFilter ctx self e
  = mkOutcome true self (setHostState ctx (toggleMaximized (hostState ctx)))
              [SetWindowState (toggleMaximized (hostState ctx)); Accept].
Proof.
  intros (He & Hb & Hin) (Hf & Hmax & Hfs).
  rewrite (filter_dblClick _ _ _ He). unfold onMouseButtonDblClick.
  rewrite Hb, Hin, Hf, Hmax, Hfs. reflexivity.
Qed.

(** X14.  Two double-clicks in the title area bring the window back: the
    second one sets the very window state the first one found, bit for
    bit, and the context is as it was. *)
Theorem double_click_twice (ctx : Context) (self : Filter) (e1 e2 : QMouseEvent) :
  maximizableByDoubleClick ctx ->
  titleDoubleClick ctx e1 ->
  titleDoubleClick ctx e2 ->
  let o1 := sharedEventFilter ctx self e1 in
  let o2 := thenEvent o1 e2 in
  contextAfter o2 = ctx
  /\ calls o2 = [SetWindowState (hostState ctx); Accept]
  /\ swallowed o1 = true /\ swallowed o2 = true
  /\ filterAfter o2 = self.
Proof.
  intros Hmax H1 H2. cbv zeta. unfold thenEvent.
  rewrite (title_double_click_outcome ctx self e1 H1 Hmax). simpl.
  rewrite (title_double_click_outcome _ self e2).
  - simpl. rewrite toggleMaximized_twice.
    repeat split; try reflexivity. destruct ctx; reflexivity.
  - exact H2.
  - destruct Hmax as (Hf & Hm & Hfs). repeat split; simpl; auto.
    rewrite toggleMaximized_fullScreen. exact Hfs.
Qed.

Lemma double_click_twice_witness :
  contextAfter
    (thenEvent (sharedEventFilter Sample.ctx640 initialFilter (Sample.dblClick 320 20))
               (Sample.dblClick 320 20))
  = Sample.ctx640.
Proof.
  apply (double_click_twice Sample.ctx640 initialFilter
           (Sample.dblClick 320 20) (Sample.dblClick 320 20));
    repeat split; reflexivity.
Defined.

(** X15.  A double-click is swallowed exactly when it is a left one in the
    title area of a window that is not fixed-size, has the maximize flag
    and is not full screen; any other double-click, one on a full-screen
    window included, calls nothing, changes nothing and is forwarded. *)
Theorem double_click_taken_iff (ctx : Context) (self : Filter) (e : QMouseEvent) :
  etype e = Qt.MouseButtonDblClick ->
  let o := sharedEventFilter ctx self e in
  (swallowed o = true <-> titleDoubleClick ctx e /\ maximizableByDoubleClick ctx)
  /\ (swallowed o = false -> o = mkOutcome false self ctx []).
Proof.
  intros He. cbv zeta. rewrite (filter_dblClick _ _ _ He).
  unfold onMouseButtonDblClick, titleDoubleClick, maximizableByDoubleClick.
  destruct (button e);
    destruct (isInTitleBarDraggableArea ctx (scenePos e));
    destruct (isHostSizeFixed ctx);
    destruct (Qt.testAny (hostFlags ctx) Qt.WindowMaximizeButtonHint);
    destruct (Qt.testAny (hostState ctx) Qt.WindowFullScreen); simpl;
    (split; [split; [intros Hx; try discriminate Hx; repeat split; auto
                    | intros Hx; try reflexivity; exfalso;
                      intuition discriminate]
            | intros Hx; try reflexivity; discriminate Hx]).
Qed.

(** A double-click in the title area of a full-screen window. *)
Lemma double_click_taken_iff_witness :
  sharedEventFilter
    (mkContext (Some Sample.win640) false Sample.titleBar30
               Qt.WindowMaximizeButtonHint Qt.WindowFullScreen)
    initialFilter (Sample.dblClick 320 20)
  = mkOutcome false initialFilter
      (mkContext (Some Sample.win640) false Sample.titleBar30
                 Qt.WindowMaximizeButtonHint Qt.WindowFullScreen) [].
Proof.
  apply (double_click_taken_iff
           (mkContext (Some Sample.win640) false Sample.titleBar30
                      Qt.WindowMaximizeButtonHint Qt.WindowFullScreen)
           initialFilter (Sample.dblClick 320 20) eq_refl).
  reflexivity.
Defined.

(** X16.  A whole double-click on the title bar, as the toolkit delivers
    it: press, release, double-click, release.  On a window that a
    double-click maximizes or restores, with no resize edge under the
    press, the first three events are swallowed, the last one is swallowed
    when it is over the title area, the window state is set once, no
    system move is started, and the machine ends in [Idle]. *)
Theorem title_double_click_sequence (ctx : Context) (self : Filter)
    (press release dbl release2 : QMouseEvent) :
  titlePress ctx press ->
  noResizeAt ctx (scenePos press) ->
  etype release = Qt.MouseButtonRelease ->
  titleDoubleClick ctx dbl ->
  maximizableByDoubleClick ctx ->
  etype release2 = Qt.MouseButtonRelease ->
  let inTitle := isInTitleBarDraggableArea ctx (scenePos release2) in
  runEvents ctx self [press; release; dbl; release2]
  = mkRun [true; true; true; inTitle] (setStatus self Idle)
          (setHostState ctx (toggleMaximized (hostState ctx)))
          ([Accept; Accept; SetWindowState (toggleMaximized (hostState ctx)); Accept]
             ++ (if inTitle then [Accept] else [])).
Proof.
  intros Hp Hno Hr Hd Hmax Hr2. cbv zeta.
  unfold runEvents.
  rewrite (title_press_prepares ctx self press Hp Hno). simpl.
  rewrite (filter_release _ _ _ Hr). unfold onMouseButtonRelease at 1. simpl.
  rewrite (title_double_click_outcome ctx _ dbl Hd Hmax). simpl.
  rewrite (filter_release _ _ _ Hr2). unfold onMouseButtonRelease. simpl.
  destruct (isInTitleBarDraggableArea ctx (scenePos release2)); reflexivity.
Qed.

Lemma title_double_click_sequence_witness :
  trace (runEvents Sample.ctx640 initialFilter
           [Sample.press 320 20; Sample.release 320 20;
            Sample.dblClick 320 20; Sample.release 320 20])
  = [Accept; Accept; SetWindowState Qt.WindowMaximized; Accept; Accept].
Proof.
  rewrite (title_double_click_sequence Sample.ctx640 initialFilter
             (Sample.press 320 20) (Sample.release 320 20)
             (Sample.dblClick 320 20) (Sample.release 320 20)).
  - reflexivity.
  - repeat split; reflexivity.
  - right. reflexivity.
  - reflexivity.
  - repeat split; reflexivity.
  - repeat split; reflexivity.
  - reflexivity.
Defined.

(** * The system menu: further properties *)

Ltac menu_cases os hWnd hMenu pos :=
  destruct (IsZoomed os hWnd),
    (Z.land (GetWindowStyle os hWnd) Win32.WS_MAXIMIZEBOX =? 0),
    (Z.land (GetWindowStyle os hWnd) Win32.WS_MINIMIZEBOX =? 0).

(** X17.  The menu is shown once, after every item was set up, at the
    given position and for the right button, right-aligned exactly when
    the text direction is right-to-left; if an entry is chosen, one
    [WM_SYSCOMMAND] with that entry is posted to the window after the menu
    closed and the result is [true]; if the menu is dismissed nothing is
    posted and the result is [false]. *)
Theorem menu_shown_then_posted (os : Os) (hWnd : Z) (pos : POINT)
    (selectFirstEntry fixedSize : bool) (hMenu : Z) :
  GetSystemMenu os hWnd = Some hMenu ->
  let flags := if isRightToLeft os then 0x10A else 0x102 in
  let chosen := TrackPopupMenu os hMenu flags (pt_x pos) (pt_y pos) hWnd in
  let '(api, result) := showSystemMenu_sys os hWnd pos selectFirstEntry fixedSize in
  exists setup after,
    api = setup ++ TrackPopupMenuCall hMenu flags (pt_x pos) (pt_y pos) hWnd :: after
    /\ List.filter isTrackPopupMenu setup = []
    /\ List.filter isTrackPopupMenu after = []
    /\ List.filter isPostMessage setup = []
    /\ List.filter isPostMessage after
       = (if chosen =? 0 then []
          else [PostMessageW hWnd Win32.WM_SYSCOMMAND chosen 0])
    /\ result = negb (chosen =? 0)
    /\ List.filter isMenuSetup after = []
    /\ length (List.filter isMenuSetup setup) = 7%nat.
Proof.
  intros Hm. cbv zeta. unfold showSystemMenu_sys. rewrite Hm.
  assert (Hflags : Z.lor (Z.lor Win32.TPM_RETURNCMD
                     (if isRightToLeft os then Win32.TPM_RIGHTALIGN
                      else Win32.TPM_LEFTALIGN)) Win32.TPM_RIGHTBUTTON
                   = if isRightToLeft os then 0x10A else 0x102)
    by (destruct (isRightToLeft os); reflexivity).
  rewrite Hflags.
  destruct (TrackPopupMenu os hMenu _ (pt_x pos) (pt_y pos) hWnd =? 0) eqn:Hc;
    (eexists (_ :: _ :: _ :: _ :: _ :: _ :: _ :: [_]), _;
     split; [reflexivity |]);
    menu_cases os hWnd hMenu pos; destruct fixedSize;
    repeat split; reflexivity.
Qed.

(** The sample system: the entry Close is chosen. *)
Lemma menu_shown_then_posted_witness :
  snd (showSystemMenu_sys Sample.os0 7 (mkPOINT 10 10) false false) = true.
Proof.
  pose proof (menu_shown_then_posted Sample.os0 7 (mkPOINT 10 10) false false 70
                eq_refl) as H.
  cbv zeta in H.
  destruct (showSystemMenu_sys Sample.os0 7 (mkPOINT 10 10) false false)
    as [api result].
  destruct H as (setup & after & _ & _ & _ & _ & _ & Hres & _).
  simpl. rewrite Hres. reflexivity.
Defined.

(** An item no [HiliteMenuItem] call names has no highlight state. *)
Lemma itemHilited_other (item : Z) (api : list ApiCall) :
  Forall (fun c => match c with
                   | HiliteMenuItem _ _ i _ => i <> item
                   | _ => True
                   end) api ->
  itemHilited item api = None.
Proof.
  induction 1 as [| c rest Hc _ IH]; [reflexivity |].
  simpl. rewrite IH. destruct c; try reflexivity.
  destruct (Z.eqb_spec item0 item); [contradiction | reflexivity].
Qed.

(** X18.  While the menu is shown the Restore entry is highlighted exactly
    when [selectFirstEntry] is set; when the function returns the
    highlight is cleared, whether an entry was chosen or not. *)
Theorem menu_highlight (os : Os) (hWnd : Z) (pos : POINT)
    (selectFirstEntry fixedSize : bool) (hMenu : Z) :
  GetSystemMenu os hWnd = Some hMenu ->
  let api := fst (showSystemMenu_sys os hWnd pos selectFirstEntry fixedSize) in
  itemHilited Win32.SC_RESTORE api = Some false
  /\ exists setup shown after,
       api = setup ++ shown :: after
       /\ isTrackPopupMenu shown = true
       /\ itemHilited Win32.SC_RESTORE setup = Some selectFirstEntry
       /\ (forall item, item <> Win32.SC_RESTORE -> itemHilited item api = None).
Proof.
  intros Hm. cbv zeta. unfold showSystemMenu_sys. rewrite Hm.
  destruct (TrackPopupMenu os hMenu _ (pt_x pos) (pt_y pos) hWnd =? 0) eqn:Hc;
    (split; [destruct selectFirstEntry; reflexivity |]);
    (eexists (_ :: _ :: _ :: _ :: _ :: _ :: _ :: [_]), _, _;
     split; [reflexivity |]; split; [reflexivity |];
     split; [destruct selectFirstEntry; reflexivity |]);
    intros item Hi; apply itemHilited_other;
    repeat (constructor; [solve [exact I | congruence] |]); constructor.
Qed.

(** The sample system, with the menu asked for by keyboard. *)
Lemma menu_highlight_witness :
  itemHilited Win32.SC_RESTORE
    (fst (showSystemMenu_sys Sample.os0 7 (mkPOINT 10 10) true false))
  = Some false.
Proof.
  apply (menu_highlight Sample.os0 7 (mkPOINT 10 10) true false 70 eq_refl).
Defined.

(** X19.  Restore and Maximize are never enabled together, and for a
    resizable window with the maximize box exactly one of them is; an
    enabled Size comes with an enabled Move; an enabled Maximize comes
    with an enabled Size. *)
Theorem menu_items_consistent (os : Os) (hWnd : Z) (pos : POINT)
    (selectFirstEntry fixedSize : bool) (hMenu : Z) :
  GetSystemMenu os hWnd = Some hMenu ->
  let api := fst (showSystemMenu_sys os hWnd pos selectFirstEntry fixedSize) in
  let enabled item := itemEnabled item api = Some true in
  ~ (enabled Win32.SC_RESTORE /\ enabled Win32.SC_MAXIMIZE)
  /\ (fixedSize = false -> maximizable os hWnd = true ->
      enabled Win32.SC_RESTORE \/ enabled Win32.SC_MAXIMIZE)
  /\ (enabled Win32.SC_SIZE -> enabled Win32.SC_MOVE)
  /\ (enabled Win32.SC_MAXIMIZE -> enabled Win32.SC_SIZE).
Proof.
  intros Hm. cbv zeta. unfold showSystemMenu_sys, maximizable. rewrite Hm.
  destruct (TrackPopupMenu os hMenu _ (pt_x pos) (pt_y pos) hWnd =? 0);
    menu_cases os hWnd hMenu pos; destruct fixedSize; simpl;
    (split; [intros [Ha Hb]; discriminate |]);
    (split; [intros Ha Hb; try discriminate; auto |]);
    (split; intros Ha; try reflexivity; discriminate).
Qed.

Lemma menu_items_consistent_witness :
  itemEnabled Win32.SC_RESTORE
    (fst (showSystemMenu_sys Sample.os0 7 (mkPOINT 10 10) false false)) = Some true
  \/ itemEnabled Win32.SC_MAXIMIZE
       (fst (showSystemMenu_sys Sample.os0 7 (mkPOINT 10 10) false false)) = Some true.
Proof.
  destruct (menu_items_consistent Sample.os0 7 (mkPOINT 10 10) false false 70
              eq_refl) as (_ & H & _).
  apply H; reflexivity.
Defined.

(** * The hook table: further properties *)

(** X20.  Uninstalling the hook of a window that has no record changes
    nothing, and uninstalling twice is uninstalling once. *)
Theorem uninstall_idempotent (hwnd : Z) (p : Process) :
  (g_qtContextHash p !! hwnd = None -> uninstallSystemMenuHook hwnd p = p)
  /\ g_qtContextHash (uninstallSystemMenuHook hwnd p) !! hwnd = None
  /\ uninstallSystemMenuHook hwnd (uninstallSystemMenuHook hwnd p)
     = uninstallSystemMenuHook hwnd p.
Proof.
  assert (Habsent : forall q, g_qtContextHash q !! hwnd = None ->
                      uninstallSystemMenuHook hwnd q = q).
  { intros q E. unfold uninstallSystemMenuHook. rewrite E. reflexivity. }
  assert (Hgone : g_qtContextHash (uninstallSystemMenuHook hwnd p) !! hwnd = None).
  { unfold uninstallSystemMenuHook.
    destruct (g_qtContextHash p !! hwnd) as [d |] eqn:E; [| exact E].
    simpl. destruct (originalWindowProc d); [unfold SetWindowProc |];
      try destruct (wndProcs p !! hwnd); simpl; apply lookup_delete_eq. }
  split; [apply Habsent |]. split; [exact Hgone |].
  apply Habsent, Hgone.
Qed.

Lemma uninstall_idempotent_witness :
  uninstallSystemMenuHook 7 Sample.process0 = Sample.process0.
Proof.
  apply (proj1 (uninstall_idempotent 7 Sample.process0)). reflexivity.
Defined.

(** X21.  Installing the hook for a handle that names no window records
    nothing and changes nothing.  Installing it for a live window without
    a record puts the replacement in place and records the procedure it
    found; from then on the designated messages open the system menu, and
    every other message sent to the window still ends in the procedure it
    had before. *)
Theorem install_is_transparent (os : Os) (hwnd ctx : Z) (p : Process) :
  reachable p ->
  g_qtContextHash p !! hwnd = None ->
  let p1 := installSystemMenuHook hwnd ctx p in
  (GetWindowProc p hwnd = None -> p1 = p)
  /\ (forall orig,
        GetWindowProc p hwnd = Some orig ->
        GetWindowProc p1 hwnd = Some SystemMenuHookWindowProcPtr
        /\ g_qtContextHash p1 !! hwnd = Some (mkData (Some orig) ctx)
        /\ (forall uMsg wParam lParam,
              (forall pos kb,
                  ~ designatedTrigger os (mkData (Some orig) ctx)
                      hwnd uMsg wParam lParam pos kb) ->
              deliver os p1 hwnd uMsg wParam lParam
              = deliver os p hwnd uMsg wParam lParam)).
Proof.
  intros Hr E. cbv zeta. unfold installSystemMenuHook. rewrite E.
  unfold GetWindowProc, SetWindowProc. split.
  - intros Hw. rewrite Hw. reflexivity.
  - intros orig Hw. rewrite Hw. simpl.
    rewrite !lookup_insert_eq. split; [reflexivity |]. split; [reflexivity |].
    intros uMsg wParam lParam Hnone.
    unfold deliver, GetWindowProc, SystemMenuHookWindowProc. simpl.
    rewrite !lookup_insert_eq, Hw.
    destruct orig as [| a].
    + destruct (reachable_hookInvariant p Hr) as [_ I2].
      destruct (I2 hwnd Hw) as [d Hd]. congruence.
    + destruct (systemMenuRequest os (mkData (Some (ForeignProc a)) ctx)
                                  hwnd uMsg wParam lParam)
        as [[[|] kb] pos] eqn:Hreq; [| reflexivity].
      destruct (Hnone pos kb). now apply systemMenuRequest_true.
Qed.

(** A mouse move sent to the sample window, before and after the hook. *)
Lemma install_is_transparent_witness :
  deliver Sample.os0 Sample.hooked 7 0x200 0 0
  = deliver Sample.os0 Sample.process0 7 0x200 0 0.
Proof.
  destruct (install_is_transparent Sample.os0 7 1 Sample.process0
              sample_process_reachable eq_refl) as [_ H].
  destruct (H (ForeignProc 1) eq_refl) as (_ & _ & Hd).
  apply Hd. intros pos kb Ht.
  inversion Ht as [Hm _ | Hm _ | Hm _ _ | Hm _ _]; try discriminate Hm.
  destruct Hm as [Hm | Hm]; discriminate Hm.
Defined.

(** X22.  Installing or uninstalling the hook of one window leaves the
    record and the procedure of every other window as they are. *)
Theorem hook_other_windows (hwnd ctx other : Z) (p : Process) :
  other <> hwnd ->
  (g_qtContextHash (installSystemMenuHook hwnd ctx p) !! other
   = g_qtContextHash p !! other
   /\ GetWindowProc (installSystemMenuHook hwnd ctx p) other = GetWindowProc p other)
  /\ (g_qtContextHash (uninstallSystemMenuHook hwnd p) !! other
      = g_qtContextHash p !! other
      /\ GetWindowProc (uninstallSystemMenuHook hwnd p) other = GetWindowProc p other).
Proof.
  intros Hne.
  assert (Hset : forall q proc,
             wndProcs (SetWindowProc q hwnd proc) !! other = wndProcs q !! other
             /\ g_qtContextHash (SetWindowProc q hwnd proc) = g_qtContextHash q).
  { intros q proc. unfold SetWindowProc.
    destruct (wndProcs q !! hwnd); simpl; [| split; reflexivity].
    rewrite lookup_insert_ne by congruence. split; reflexivity. }
  unfold installSystemMenuHook, uninstallSystemMenuHook, GetWindowProc.
  split.
  - destruct (g_qtContextHash p !! hwnd); [split; reflexivity |].
    destruct (wndProcs p !! hwnd) eqn:Ew; simpl; [| split; reflexivity].
    destruct (Hset p SystemMenuHookWindowProcPtr) as [Hs1 Hs2].
    rewrite lookup_insert_ne by congruence. rewrite Hs1, Hs2.
    split; reflexivity.
  - destruct (g_qtContextHash p !! hwnd) as [d |]; [| split; reflexivity].
    simpl. rewrite lookup_delete_ne by congruence.
    destruct (originalWindowProc d) as [orig |]; [| split; reflexivity].
    destruct (Hset p orig) as [Hs1 Hs2]. rewrite Hs1, Hs2. split; reflexivity.
Qed.

Lemma hook_other_windows_witness :
  g_qtContextHash (installSystemMenuHook 7 1 Sample.process0) !! 8
  = g_qtContextHash Sample.process0 !! 8.
Proof.
  apply (hook_other_windows 7 1 8 Sample.process0). discriminate.
Defined.

(** X23.  In every state the process reaches, the replaced procedure never
    forwards a message to itself, and a window that uses the replacement
    has a record: a message sent to any window ends in a procedure other
    than the replacement, in the default procedure, or in the system
    menu. *)
Theorem hook_never_calls_itself (os : Os) (p : Process)
    (hWnd uMsg wParam lParam : Z) :
  reachable p ->
  (forall h u w l,
      SystemMenuHookWindowProc os p hWnd uMsg wParam lParam
      <> CallWindowProcW SystemMenuHookWindowProcPtr h u w l)
  /\ (forall h u w l,
        deliver os p hWnd uMsg wParam lParam
        <> Some (CallWindowProcW SystemMenuHookWindowProcPtr h u w l))
  /\ (GetWindowProc p hWnd = Some SystemMenuHookWindowProcPtr ->
      is_Some (g_qtContextHash p !! hWnd)).
Proof.
  intros Hr. destruct (reachable_hookInvariant p Hr) as [I1 I2].
  assert (Hself : forall h u w l,
             SystemMenuHookWindowProc os p hWnd uMsg wParam lParam
             <> CallWindowProcW SystemMenuHookWindowProcPtr h u w l).
  { intros h u w l. unfold SystemMenuHookWindowProc.
    destruct (g_qtContextHash p !! hWnd) as [d |] eqn:E; [| discriminate].
    destruct (I1 hWnd d E) as [a Ha]. rewrite Ha.
    destruct (systemMenuRequest os d hWnd uMsg wParam lParam) as [[[|] kb] pos];
      discriminate. }
  split; [exact Hself |]. split; [| apply I2].
  intros h u w l. unfold deliver.
  destruct (GetWindowProc p hWnd) as [[| a] |]; try discriminate.
  intros [= Hx]. exact (Hself h u w l Hx).
Qed.

Lemma hook_never_calls_itself_witness :
  deliver Sample.os0 Sample.hooked 7 0x200 0 0
  <> Some (CallWindowProcW SystemMenuHookWindowProcPtr 7 0x200 0 0).
Proof.
  apply (hook_never_calls_itself Sample.os0 Sample.hooked 7 0x200 0 0
           sample_hooked_reachable).
Defined.

(** ** The hook functions, window by window *)

Lemma process_eq (p q : Process) :
  (forall h, g_qtContextHash p !! h = g_qtContextHash q !! h) ->
  (forall h, wndProcs p !! h = wndProcs q !! h) ->
  p = q.
Proof.
  intros Hh Hw. destruct p as [ph pw], q as [qh qw]. simpl in *.
  f_equal; apply map_eq; assumption.
Qed.

Lemma install_hash_at (h c : Z) (p : Process) :
  g_qtContextHash (installSystemMenuHook h c p) !! h
  = match g_qtContextHash p !! h with
    | Some d => Some d
    | None => (fun w => mkData (Some w) c) <$> wndProcs p !! h
    end.
Proof.
  unfold installSystemMenuHook, GetWindowProc, SetWindowProc.
  destruct (g_qtContextHash p !! h) eqn:E; [exact E |].
  destruct (wndProcs p !! h) eqn:Ew; simpl; [| exact E].
  apply lookup_insert_eq.
Qed.

Lemma install_procs_at (h c : Z) (p : Process) :
  wndProcs (installSystemMenuHook h c p) !! h
  = match g_qtContextHash p !! h with
    | Some _ => wndProcs p !! h
    | None => (fun _ => SystemMenuHookWindowProcPtr) <$> wndProcs p !! h
    end.
Proof.
  unfold installSystemMenuHook, GetWindowProc, SetWindowProc.
  destruct (g_qtContextHash p !! h) eqn:E; [reflexivity |].
  destruct (wndProcs p !! h) eqn:Ew; simpl; [| exact Ew].
  apply lookup_insert_eq.
Qed.

Lemma install_hash_other (h c k : Z) (p : Process) :
  k <> h ->
  g_qtContextHash (installSystemMenuHook h c p) !! k = g_qtContextHash p !! k.
Proof.
  intros Hne. unfold installSystemMenuHook, GetWindowProc, SetWindowProc.
  destruct (g_qtContextHash p !! h); [reflexivity |].
  destruct (wndProcs p !! h) eqn:Ew; simpl; [| reflexivity].
  apply lookup_insert_ne. congruence.
Qed.

Lemma install_procs_other (h c k : Z) (p : Process) :
  k <> h ->
  wndProcs (installSystemMenuHook h c p) !! k = wndProcs p !! k.
Proof.
  intros Hne. unfold installSystemMenuHook, GetWindowProc, SetWindowProc.
  destruct (g_qtContextHash p !! h); [reflexivity |].
  destruct (wndProcs p !! h) eqn:Ew; simpl; [| reflexivity].
  apply lookup_insert_ne. congruence.
Qed.

Lemma uninstall_hash_at (h : Z) (p : Process) :
  g_qtContextHash (uninstallSystemMenuHook h p) !! h = None.
Proof.
  unfold uninstallSystemMenuHook.
  destruct (g_qtContextHash p !! h) as [d |] eqn:E; [| exact E].
  simpl. destruct (originalWindowProc d); [unfold SetWindowProc |];
    try destruct (wndProcs p !! h); simpl; apply lookup_delete_eq.
Qed.

Lemma uninstall_procs_at (h : Z) (p : Process) :
  wndProcs (uninstallSystemMenuHook h p) !! h
  = match g_qtContextHash p !! h with
    | Some d =>
      match originalWindowProc d with
      | Some orig => (fun _ => orig) <$> wndProcs p !! h
      | None => wndProcs p !! h
      end
    | None => wndProcs p !! h
    end.
Proof.
  unfold uninstallSystemMenuHook, SetWindowProc.
  destruct (g_qtContextHash p !! h) as [d |]; [| reflexivity].
  destruct (originalWindowProc d); [| reflexivity].
  destruct (wndProcs p !! h) eqn:Ew; simpl; [apply lookup_insert_eq | exact Ew].
Qed.

Lemma uninstall_hash_other (h k : Z) (p : Process) :
  k <> h ->
  g_qtContextHash (uninstallSystemMenuHook h p) !! k = g_qtContextHash p !! k.
Proof.
  intros Hne. unfold uninstallSystemMenuHook, SetWindowProc.
  destruct (g_qtContextHash p !! h) as [d |]; [| reflexivity].
  destruct (originalWindowProc d); [| simpl; apply lookup_delete_ne; congruence].
  destruct (wndProcs p !! h); simpl; apply lookup_delete_ne; congruence.
Qed.

Lemma uninstall_procs_other (h k : Z) (p : Process) :
  k <> h ->
  wndProcs (uninstallSystemMenuHook h p) !! k = wndProcs p !! k.
Proof.
  intros Hne. unfold uninstallSystemMenuHook, SetWindowProc.
  destruct (g_qtContextHash p !! h) as [d |]; [| reflexivity].
  destruct (originalWindowProc d); [| reflexivity].
  destruct (wndProcs p !! h); simpl; [| reflexivity].
  apply lookup_insert_ne. congruence.
Qed.

Ltac hook_lookups :=
  repeat first
    [ rewrite install_hash_at | rewrite install_procs_at
    | rewrite uninstall_hash_at | rewrite uninstall_procs_at
    | rewrite install_hash_other by congruence
    | rewrite install_procs_other by congruence
    | rewrite uninstall_hash_other by congruence
    | rewrite uninstall_procs_other by congruence ].

(** X24.  The hooks of two different windows do not interfere: installing
    or uninstalling for one and for the other gives the same process state
    in either order. *)
Theorem hooks_commute (h1 h2 c1 c2 : Z) (p : Process) :
  h1 <> h2 ->
  installSystemMenuHook h1 c1 (installSystemMenuHook h2 c2 p)
  = installSystemMenuHook h2 c2 (installSystemMenuHook h1 c1 p)
  /\ uninstallSystemMenuHook h1 (uninstallSystemMenuHook h2 p)
     = uninstallSystemMenuHook h2 (uninstallSystemMenuHook h1 p)
  /\ uninstallSystemMenuHook h1 (installSystemMenuHook h2 c2 p)
     = installSystemMenuHook h2 c2 (uninstallSystemMenuHook h1 p).
Proof.
  intros Hne. repeat split; apply process_eq; intros k;
    destruct (decide (k = h1)) as [E1 | Hk1];
    destruct (decide (k = h2)) as [E2 | Hk2];
    try congruence; try subst k; hook_lookups; reflexivity.
Qed.

Lemma hooks_commute_witness :
  installSystemMenuHook 7 1 (installSystemMenuHook 8 2 Sample.process0)
  = installSystemMenuHook 8 2 (installSystemMenuHook 7 1 Sample.process0).
Proof.
  apply (hooks_commute 7 8 1 2 Sample.process0). discriminate.
Defined.

(** ** Reading the messages *)

Lemma LOWORD_packPoint (x y : Z) : Win32.LOWORD (packPoint x y) = x mod 0x10000.
Proof.
  unfold Win32.LOWORD, packPoint.
  change 0xFFFF with (Z.ones 16). change 0x10000 with (2 ^ 16).
  rewrite <- (Z.land_ones x 16) by lia.
  apply Z.bits_inj'. intros i Hi.
  rewrite !Z.land_spec, Z.lor_spec, Z.land_spec.
  rewrite !Z.testbit_ones_nonneg by lia.
  destruct (Z.ltb_spec i 16).
  - rewrite Z.shiftl_spec_low by lia. rewrite orb_false_r, andb_true_r.
    reflexivity.
  - rewrite !andb_false_r. reflexivity.
Qed.

Lemma HIWORD_packPoint (x y : Z) : Win32.HIWORD (packPoint x y) = y mod 0x10000.
Proof.
  unfold Win32.HIWORD, packPoint.
  change 0xFFFF with (Z.ones 16). change 0x10000 with (2 ^ 16).
  rewrite <- (Z.land_ones y 16) by lia.
  apply Z.bits_inj'. intros i Hi.
  rewrite !Z.land_spec, Z.shiftr_spec by exact Hi.
  rewrite Z.lor_spec, Z.land_spec, Z.shiftl_spec by lia.
  replace (i + 16 - 16) with i by lia.
  rewrite Z.land_spec, !Z.testbit_ones_nonneg by lia.
  destruct (Z.ltb_spec i 16).
  - destruct (Z.ltb_spec (i + 16) 16); [lia |].
    rewrite andb_false_r, andb_true_r. reflexivity.
  - rewrite !andb_false_r. reflexivity.
Qed.

Lemma toShort_word (x : Z) :
  -0x8000 <= x < 0x8000 -> Win32.toShort (x mod 0x10000) = x.
Proof.
  intros Hx. unfold Win32.toShort.
  destruct (Z.ltb_spec (x mod 0x10000) 0x8000) as [H | H];
    revert H; Z.div_mod_to_equations; lia.
Qed.

Lemma lParamPoint_packPoint (x y : Z) :
  -0x8000 <= x < 0x8000 ->
  -0x8000 <= y < 0x8000 ->
  lParamPoint (packPoint x y) = mkPOINT x y.
Proof.
  intros Hx Hy. unfold lParamPoint, Win32.GET_X_LPARAM, Win32.GET_Y_LPARAM.
  rewrite LOWORD_packPoint, HIWORD_packPoint, !toShort_word by assumption.
  reflexivity.
Qed.

(** X25.  The point of a mouse message is read as two signed 16-bit
    numbers.  For a window with a record, a right-button-up on the caption
    whose [lParam] carries the screen point ([x], [y]), with coordinates
    from -32768 to 32767, opens the system menu at exactly ([x], [y]),
    points left of or above the primary screen included, without
    highlight. *)
Theorem caption_click_position (os : Os) (p : Process) (hWnd x y : Z)
    (data : Win32QtContextData) :
  g_qtContextHash p !! hWnd = Some data ->
  -0x8000 <= x < 0x8000 ->
  -0x8000 <= y < 0x8000 ->
  SystemMenuHookWindowProc os p hWnd Win32.WM_NCRBUTTONUP Win32.HTCAPTION
                           (packPoint x y)
  = SystemMenu
      (showSystemMenu_sys os hWnd (mkPOINT x y) false
         (isHostSizeFixed (contextAt os (context data))))
      0.
Proof.
  intros E Hx Hy. unfold SystemMenuHookWindowProc. rewrite E.
  unfold systemMenuRequest. simpl.
  fold (lParamPoint (packPoint x y)).
  rewrite (lParamPoint_packPoint x y Hx Hy). reflexivity.
Qed.

(** A click at (-5, 40), on a screen to the left of the primary one. *)
Lemma caption_click_position_witness :
  SystemMenuHookWindowProc Sample.os0 Sample.hooked 7 Win32.WM_NCRBUTTONUP
                           Win32.HTCAPTION (packPoint (-5) 40)
  = SystemMenu (showSystemMenu_sys Sample.os0 7 (mkPOINT (-5) 40) false false) 0.
Proof.
  apply (caption_click_position Sample.os0 Sample.hooked 7 (-5) 40
           (mkData (Some (ForeignProc 1)) 1)).
  - reflexivity.
  - lia.
  - lia.
Defined.

Lemma keymenu_low_bits (k : Z) :
  0 <= k < 16 -> Z.land (Win32.SC_KEYMENU + k) 0xFFF0 = Win32.SC_KEYMENU.
Proof.
  intros Hk.
  assert (Hcases : k = 0 \/ k = 1 \/ k = 2 \/ k = 3 \/ k = 4 \/ k = 5 \/ k = 6
                   \/ k = 7 \/ k = 8 \/ k = 9 \/ k = 10 \/ k = 11 \/ k = 12
                   \/ k = 13 \/ k = 14 \/ k = 15) by lia.
  repeat (destruct Hcases as [-> | Hcases]; [reflexivity |]).
  subst k. reflexivity.
Qed.

(** X26.  For a window with a record in a reachable state, the keyboard
    command [SC_KEYMENU] opens the system menu only for the space key:
    whatever the low four bits of [wParam], with [lParam] the space key the
    menu opens 30 units below the top-left corner of the window with the
    Restore entry highlighted; with any other key the command goes to the
    original procedure. *)
Theorem keyboard_menu_command (os : Os) (p : Process) (hWnd k lParam : Z)
    (data : Win32QtContextData) :
  reachable p ->
  g_qtContextHash p !! hWnd = Some data ->
  0 <= k < 16 ->
  let run :=
    SystemMenuHookWindowProc os p hWnd Win32.WM_SYSCOMMAND
                             (Win32.SC_KEYMENU + k) lParam in
  (lParam = Win32.VK_SPACE ->
   run = SystemMenu
           (showSystemMenu_sys os hWnd
              (mkPOINT (rc_left (GetWindowRect os hWnd))
                       (rc_top (GetWindowRect os hWnd) + 30))
              true (isHostSizeFixed (contextAt os (context data))))
           0)
  /\ (lParam <> Win32.VK_SPACE ->
      exists orig,
        originalWindowProc data = Some orig
        /\ run = CallWindowProcW orig hWnd Win32.WM_SYSCOMMAND
                                 (Win32.SC_KEYMENU + k) lParam).
Proof.
  intros Hr E Hk. cbv zeta. unfold SystemMenuHookWindowProc. rewrite E.
  unfold systemMenuRequest.
  change (Win32.WM_SYSCOMMAND =? Win32.WM_RBUTTONUP) with false.
  change (Win32.WM_SYSCOMMAND =? Win32.WM_NCRBUTTONUP) with false.
  change (Win32.WM_SYSCOMMAND =? Win32.WM_SYSCOMMAND) with true.
  cbv iota zeta. rewrite (keymenu_low_bits k Hk), Z.eqb_refl. split.
  - intros ->. reflexivity.
  - intros Hl. apply Z.eqb_neq in Hl. rewrite Hl. simpl.
    destruct (reachable_hookInvariant p Hr) as [I1 _].
    destruct (I1 hWnd data E) as [a Ha]. rewrite Ha. eauto.
Qed.

(** Alt+F on the hooked sample window: the command of the key F (0x66)
    goes to the original procedure. *)
Lemma keyboard_menu_command_witness :
  exists orig,
    SystemMenuHookWindowProc Sample.os0 Sample.hooked 7 Win32.WM_SYSCOMMAND
                             (Win32.SC_KEYMENU + 0) 0x66
    = CallWindowProcW orig 7 Win32.WM_SYSCOMMAND (Win32.SC_KEYMENU + 0) 0x66.
Proof.
  destruct (keyboard_menu_command Sample.os0 Sample.hooked 7 0 0x66
              (mkData (Some (ForeignProc 1)) 1) sample_hooked_reachable eq_refl)
    as [_ H]; [lia |].
  destruct H as (orig & _ & Hrun); [discriminate |].
  exists orig. exact Hrun.
Defined.

(** * The window context: properties *)

Lemma set_bit_bits (a n i : Z) :
  0 <= n -> 0 <= i ->
  Z.testbit (Z.lor a (2 ^ n)) i = if i =? n then true else Z.testbit a i.
Proof.
  intros Hn Hi. rewrite Z.lor_spec, Z.pow2_bits_eqb by exact Hn.
  rewrite (Z.eqb_sym n i). destruct (i =? n).
  - apply orb_true_r.
  - apply orb_false_r.
Qed.

Lemma clear_bit_bits (a n i : Z) :
  0 <= n -> 0 <= i ->
  Z.testbit (Z.land a (Z.lnot (2 ^ n))) i = if i =? n then false else Z.testbit a i.
Proof.
  intros Hn Hi. rewrite Z.land_spec, Z.lnot_spec by exact Hi.
  rewrite Z.pow2_bits_eqb by exact Hn.
  rewrite (Z.eqb_sym n i). destruct (i =? n); simpl.
  - apply andb_false_r.
  - apply andb_true_r.
Qed.

(** X27.  When the window id changes, the frameless flag of the host is
    set if the context has a window and cleared if it has none; every
    other flag of the host, its state and the rest of the context are
    kept, and a second notification leaves the flags as the first one
    made them. *)
Theorem winIdChanged_frameless (this : Z) (ctx : Context) (winId oldWinId : Z)
    (p : Process) :
  let ctx' := fst (winIdChanged this ctx winId oldWinId p) in
  Qt.testAny (hostFlags ctx') FramelessWindowHint
  = match window ctx with Some _ => true | None => false end
  /\ (forall i, 0 <= i -> i <> 11 ->
        Z.testbit (hostFlags ctx') i = Z.testbit (hostFlags ctx) i)
  /\ ctx' = setHostFlags ctx (hostFlags ctx')
  /\ (forall winId' oldWinId' p',
        fst (winIdChanged this ctx' winId' oldWinId' p') = ctx').
Proof.
  cbv zeta. unfold winIdChanged. simpl.
  change FramelessWindowHint with (2 ^ 11).
  destruct (window ctx) as [win |] eqn:Hw; simpl.
  - split; [| split; [| split]].
    + rewrite testAny_bit by lia. rewrite set_bit_bits by lia. reflexivity.
    + intros i Hi Hne. rewrite set_bit_bits by lia.
      destruct (Z.eqb_spec i 11); [contradiction | reflexivity].
    + reflexivity.
    + intros _ _ _. rewrite Hw. unfold setHostFlags. simpl.
      rewrite <- Z.lor_assoc, Z.lor_diag. reflexivity.
  - split; [| split; [| split]].
    + rewrite testAny_bit by lia. rewrite clear_bit_bits by lia. reflexivity.
    + intros i Hi Hne. rewrite clear_bit_bits by lia.
      destruct (Z.eqb_spec i 11); [contradiction | reflexivity].
    + reflexivity.
    + intros _ _ _. rewrite Hw. unfold setHostFlags. simpl.
      rewrite <- Z.land_assoc, Z.land_diag. reflexivity.
Qed.

(** A context without a window: the frameless flag is cleared. *)
Lemma winIdChanged_frameless_witness :
  hostFlags
    (fst (winIdChanged 1
            (mkContext None false Sample.titleBar30
                       (Z.lor Qt.WindowMaximizeButtonHint FramelessWindowHint) 0)
            0 7 Sample.hooked))
  = Qt.WindowMaximizeButtonHint.
Proof.
  apply Z.bits_inj'. intros i Hi.
  destruct (Z.eq_dec i 11) as [-> | Hne]; [reflexivity |].
  rewrite (proj1 (proj2 (winIdChanged_frameless 1
             (mkContext None false Sample.titleBar30
                        (Z.lor Qt.WindowMaximizeButtonHint FramelessWindowHint) 0)
             0 7 Sample.hooked)) i Hi Hne).
  simpl. change FramelessWindowHint with (2 ^ 11).
  rewrite set_bit_bits by lia.
  destruct (Z.eqb_spec i 11); [contradiction | reflexivity].
Defined.

(** X28.  When the window id changes from one window to another, the old
    window has no record afterwards; a new window that is live and had no
    record uses the replacement and has a record with its former procedure
    and this context; a new id that names no window gets no record; and
    the records and procedures of all other windows are untouched. *)
Theorem winIdChanged_moves_hook (this : Z) (ctx : Context) (winId oldWinId : Z)
    (p : Process) :
  winId <> 0 -> oldWinId <> 0 -> winId <> oldWinId ->
  let p' := snd (winIdChanged this ctx winId oldWinId p) in
  g_qtContextHash p' !! oldWinId = None
  /\ (g_qtContextHash p !! winId = None ->
      g_qtContextHash p' !! winId
      = (fun w => mkData (Some w) this) <$> GetWindowProc p winId
      /\ GetWindowProc p' winId
         = (fun _ => SystemMenuHookWindowProcPtr) <$> GetWindowProc p winId)
  /\ (forall other, other <> winId -> other <> oldWinId ->
        g_qtContextHash p' !! other = g_qtContextHash p !! other
        /\ GetWindowProc p' other = GetWindowProc p other).
Proof.
  intros Hn Ho Hne. cbv zeta. unfold winIdChanged, GetWindowProc. simpl.
  apply Z.eqb_neq in Hn, Ho. rewrite Hn, Ho.
  split; [| split].
  - hook_lookups. reflexivity.
  - intros E. hook_lookups. rewrite E. split; reflexivity.
  - intros other H1 H2. hook_lookups. split; reflexivity.
Qed.

Lemma winIdChanged_moves_hook_witness :
  g_qtContextHash (snd (winIdChanged 2 Sample.ctx640 8 7 Sample.hooked)) !! 7 = None.
Proof.
  assert (H8 : 8 <> 0) by discriminate.
  assert (H7 : 7 <> 0) by discriminate.
  assert (H87 : 8 <> 7) by discriminate.
  exact (proj1 (winIdChanged_moves_hook 2 Sample.ctx640 8 7 Sample.hooked
                  H8 H7 H87)).
Defined.

(** X29.  The life of a context leaves no trace.  For a window without a
    record, gaining the window id and then losing it, or gaining it and
    then destroying the context, gives back the process state as it was,
    the window's own procedure included; a context without a window id
    changes nothing when it is destroyed. *)
Theorem context_life_cycle (this : Z) (ctx ctx' : Context) (winId : Z)
    (p : Process) :
  (winId <> 0 -> g_qtContextHash p !! winId = None ->
   let hooked := snd (winIdChanged this ctx winId 0 p) in
   snd (winIdChanged this ctx' 0 winId hooked) = p
   /\ destroyContext winId hooked = p)
  /\ destroyContext 0 p = p
  /\ g_qtContextHash (destroyContext winId p) !! winId
     = if winId =? 0 then g_qtContextHash p !! 0 else None.
Proof.
  split; [| split].
  - intros Hn E. cbv zeta. unfold winIdChanged, destroyContext. simpl.
    apply Z.eqb_neq in Hn. rewrite Hn.
    split; apply install_uninstall_fresh, E.
  - reflexivity.
  - unfold destroyContext. destruct (Z.eqb_spec winId 0) as [-> | Hn].
    + reflexivity.
    + apply uninstall_hash_at.
Qed.

Lemma context_life_cycle_witness :
  destroyContext 7 (snd (winIdChanged 1 Sample.ctx640 7 0 Sample.process0))
  = Sample.process0.
Proof.
  destruct (context_life_cycle 1 Sample.ctx640 Sample.ctx640 7 Sample.process0)
    as [H _].
  apply H; [discriminate | reflexivity].
Defined.

(** X30.  [virtual_hook] shows the system menu exactly for the hook id
    [ShowSystemMenuHook] on a context with a window id, and hands every
    other call to the base class.  The menu it shows is at the native
    position of the given point and has no entry highlighted. *)
Theorem virtual_hook_menu (ShowSystemMenuHook : Z)
    (toNative : QPoint -> option QWindow -> QPoint)
    (os : Os) (ctx : Context) (m_windowId id : Z) (pos : QPoint) :
  let run := virtual_hook ShowSystemMenuHook toNative os ctx m_windowId id pos in
  (id <> ShowSystemMenuHook \/ m_windowId = 0 -> run = BaseVirtualHook id)
  /\ (id = ShowSystemMenuHook -> m_windowId <> 0 ->
      exists api result,
        run = ShownSystemMenu (api, result)
        /\ (forall hMenu, GetSystemMenu os m_windowId = Some hMenu ->
              exists flags,
                In (TrackPopupMenuCall hMenu flags
                      (px (toNative pos (window ctx)))
                      (py (toNative pos (window ctx))) m_windowId) api)
        /\ (forall hWnd hMenu item flags,
              In (HiliteMenuItem hWnd hMenu item flags) api ->
              Z.land flags Win32.MFS_HILITE = 0)).
Proof.
  cbv zeta. unfold virtual_hook. split.
  - intros [Hid | ->].
    + apply Z.eqb_neq in Hid. rewrite Hid. reflexivity.
    + rewrite andb_false_r. reflexivity.
  - intros -> Hw. apply Z.eqb_neq in Hw. rewrite Z.eqb_refl, Hw. simpl.
    destruct (showSystemMenu_sys os m_windowId _ false (isHostSizeFixed ctx))
      as [api result] eqn:Hrun.
    exists api, result. split; [reflexivity |].
    unfold showSystemMenu_sys in Hrun.
    destruct (GetSystemMenu os m_windowId) as [hMenu |].
    + destruct (TrackPopupMenu os hMenu _ _ _ m_windowId =? 0);
        injection Hrun as <- <-; (split;
        [ intros hm [= <-]; eexists; simpl; tauto
        | intros hWnd hm item flags Hin; simpl in Hin;
          repeat (destruct Hin as [Hin | Hin]; [try discriminate Hin |]);
          try contradiction; injection Hin as <- <- <- <-; reflexivity ]).
    + injection Hrun as <- <-. split; [discriminate | intros ? ? ? ? []].
Qed.

(** The base class gets every call of a context without a window id. *)
Lemma virtual_hook_menu_witness :
  virtual_hook 3 (fun q _ => q) Sample.os0 Sample.ctx640 0 3 (mkQPoint 10 10)
  = BaseVirtualHook 3.
Proof.
  apply (virtual_hook_menu 3 (fun q _ => q) Sample.os0 Sample.ctx640 0 3
           (mkQPoint 10 10)).
  right. reflexivity.
Defined.
